(** * retreive_movies_data.py: checkpointed harvesting of a paginated catalogue

    A shallow embedding of [src/retreive_movies_data.py].  The script threads
    three kinds of effect through its functions: the JSON files under
    [data/], the HTTP requests it sends, and the lines it prints.  They are
    modelled by one state-and-exception monad [M] over a [world]; Python's
    [try]/[except] becomes [try_except], a [for] loop becomes [for_].

    Modelling decisions, each at the place it is used:
    - integers are unbounded, as in Python: [Z];
    - ids are integers, as the source annotates them ([list[int]],
      [movie_id: int]); JSON numbers are integers, floats are left out;
    - the folder [data/] exists, and a file in it, when present, holds what
      [json.dump] wrote there for that file name: a checkpoint for
      [movies_ids.json], a list of documents for the other two;
    - the remote API is an oracle that may answer differently each time: its
      answer depends on the whole history of events so far;
    - iteration over a Python [set] follows an order the language does not
      fix: [set_iter], any enumeration of the set. *)

From Stdlib Require Import ZArith List String Lia.
From stdpp Require Import base gmap sets list strings.

Local Open Scope Z_scope.
Local Open Scope string_scope.
Local Open Scope list_scope.

#[local] Set Warnings "-register-all".

(** ** Values *)

(** JSON documents as [json.load] and [response.json()] produce them. *)
Inductive json : Type :=
| JNull
| JBool (b : bool)
| JInt (z : Z)
| JStr (s : string)
| JList (l : list json)
| JDict (kvs : list (string * json)).

(** The exceptions the script raises or meets. *)
Inductive exc : Type :=
| ValueError (msg : string)
| KeyError (key : string)
| TypeError
| JSONDecodeError
| ConnectionError
| Exception (msg : string).

(** [except ValueError]: the class and its subclasses
    ([json.JSONDecodeError] derives from [ValueError]). *)
Definition is_ValueError (e : exc) : bool :=
  match e with
  | ValueError _ | JSONDecodeError => true
  | _ => false
  end.

Inductive result (A : Type) : Type :=
| Ok (a : A)
| Raise (e : exc).
Arguments Ok {A} a.
Arguments Raise {A} e.

(** The checkpoint document of [movies_ids.json]:
    [{"page": .., "pages_per_run": .., "max_pages": .., "data": [..]}]. *)
Record checkpoint : Type := Checkpoint {
  page : Z;
  pages_per_run : Z;
  max_pages : Z;
  data : list Z
}.

(** ** Files *)

(** The three file names, each with the type of what is stored under it. *)
Inductive file : Type -> Type :=
| MOVIES_IDS_FILE_NAME : file checkpoint
| CREDITS_FILE_NAME : file (list json)
| MOVIES_FILE_NAME : file (list json).

Definition file_name {A} (f : file A) : string :=
  match f with
  | MOVIES_IDS_FILE_NAME => "movies_ids.json"
  | CREDITS_FILE_NAME => "credits.json"
  | MOVIES_FILE_NAME => "movies.json"
  end.

(** The [data/] folder: a file is absent ([None]) or holds a document. *)
Record folder : Type := Folder {
  movies_ids_json : option checkpoint;
  credits_json : option (list json);
  movies_json : option (list json)
}.

Definition content {A} (f : file A) (d : folder) : option A :=
  match f in file T return option T with
  | MOVIES_IDS_FILE_NAME => movies_ids_json d
  | CREDITS_FILE_NAME => credits_json d
  | MOVIES_FILE_NAME => movies_json d
  end.

Definition overwrite {A} (f : file A) : A -> folder -> folder :=
  match f in file T return T -> folder -> folder with
  | MOVIES_IDS_FILE_NAME => fun a d =>
      Folder (Some a) (credits_json d) (movies_json d)
  | CREDITS_FILE_NAME => fun a d =>
      Folder (movies_ids_json d) (Some a) (movies_json d)
  | MOVIES_FILE_NAME => fun a d =>
      Folder (movies_ids_json d) (credits_json d) (Some a)
  end.

(** ** The remote API and the observable events *)

(** The three GET requests, by URL path, with the bearer token sent. *)
Inductive request : Type :=
| DiscoverMovie (page : Z) (token : string)
| MovieDetails (movie_id : Z) (token : string)
| MovieCredits (movie_id : Z) (token : string).

(** What [requests.get] does: it raises, or returns a response with a
    status code whose [.json()] yields a document or raises ([None]). *)
Inductive reply (B : Type) : Type :=
| Failed (e : exc)
| Responded (status_code : Z) (body : option B).
Arguments Failed {B} e.
Arguments Responded {B} status_code body.

(** The listing document as far as [retreive_movies_id] reads it:
    [response.json()["results"]] is absent ([None]) or a list of entries,
    and [movie["id"]] of an entry is absent ([None]) or an integer. *)
Definition listing : Type := option (list (option Z)).

(** The lines the script prints, by format string. *)
Inductive line : Type :=
| PageError (page : Z)
| SavingPage (page : Z)
| MovieError (movie_id : Z)
| RetreivingMovie (movie_id : Z)
| CrewError (movie_id : Z)
| ReadingCredit (id : json)
| Running (i : Z)
| Shown (e : exc).

Inductive event : Type :=
| Get (r : request)
| Print (l : line)
| Dump (name : string)
| Sleep (seconds : Z).

(** The API: each endpoint answers from the history of events so far. *)
Record api : Type := Api {
  discover_movie : list event -> Z -> string -> reply listing;
  movie : list event -> Z -> string -> reply json;
  movie_credits : list event -> Z -> string -> reply json
}.

(** ** The monad *)

Record world : Type := World {
  MOVIE_API_TOKEN : option string;
  files : folder;
  out : list event
}.

Definition M (A : Type) : Type := world -> result A * world.

Definition ret {A} (a : A) : M A := fun w => (Ok a, w).

Definition raise {A} (e : exc) : M A := fun w => (Raise e, w).

Definition bind {A B} (m : M A) (k : A -> M B) : M B :=
  fun w =>
    match m w with
    | (Ok a, w') => k a w'
    | (Raise e, w') => (Raise e, w')
    end.

Notation "'let*' x ':=' m 'in' k" := (bind m (fun x => k))
  (at level 10, x name, m at level 100, k at level 200, only parsing).
Notation "m ';;' k" := (bind m (fun _ => k))
  (at level 100, k at level 200, right associativity, only parsing).

(** A pure computation that may raise. *)
Definition lift {A} (r : result A) : M A := fun w => (r, w).

(** [try: m  except Exception as e: handler e] *)
Definition try_except {A} (m : M A) (handler : exc -> M A) : M A :=
  fun w =>
    match m w with
    | (Ok a, w') => (Ok a, w')
    | (Raise e, w') => handler e w'
    end.

Definition emit (e : event) : M unit :=
  fun w => (Ok tt, World (MOVIE_API_TOKEN w) (files w) (out w ++ [e])).

Definition print (l : line) : M unit := emit (Print l).

(** [for x in xs: body], the loop's variables threaded as [s]. *)
Fixpoint for_ {A S} (xs : list A) (body : A -> S -> M S) (s : S) : M S :=
  match xs with
  | [] => ret s
  | x :: xs' => let* s' := body x s in for_ xs' body s'
  end.

(** ** Python's operations on values *)

(** [d[key]]: only a dict is indexed by a string. *)
Fixpoint lookup_key (key : string) (kvs : list (string * json)) : option json :=
  match kvs with
  | [] => None
  | (k, v) :: kvs' => if String.eqb k key then Some v else lookup_key key kvs'
  end.

Definition getitem (d : json) (key : string) : result json :=
  match d with
  | JDict kvs =>
      match lookup_key key kvs with
      | Some v => Ok v
      | None => Raise (KeyError key)
      end
  | _ => Raise TypeError
  end.

(** [x == v] for an integer [x]: [True] and [False] are the integers 1
    and 0; no other JSON value equals an integer. *)
Definition int_eq (x : Z) (v : json) : bool :=
  match v with
  | JInt z => Z.eqb x z
  | JBool b => Z.eqb x (if b then 1 else 0)
  | _ => false
  end.

(** [x in vs] *)
Definition py_in (x : Z) (vs : list json) : bool := existsb (int_eq x) vs.

(** [[m["id"] for m in docs]] *)
Fixpoint ids_of (docs : list json) : result (list json) :=
  match docs with
  | [] => Ok []
  | m :: docs' =>
      match getitem m "id" with
      | Raise e => Raise e
      | Ok v =>
          match ids_of docs' with
          | Raise e => Raise e
          | Ok vs => Ok (v :: vs)
          end
      end
  end.

(** [list(range(a, b))] *)
Definition range (a b : Z) : list Z :=
  map (fun i : nat => a + Z.of_nat i) (seq 0 (Z.to_nat (b - a))).

(** ** The script *)

(** [os.getenv("MOVIE_API_TOKEN")], then [if not token: raise ...]. *)
Definition read_token : M string :=
  fun w =>
    match MOVIE_API_TOKEN w with
    | None => (Raise (ValueError "missing movies api token"), w)
    | Some token =>
        if String.eqb token ""
        then (Raise (ValueError "missing movies api token"), w)
        else (Ok token, w)
    end.

(** [read_data(file_name, default)]: the stored document if the file
    exists, else [default], whatever its type. *)
Definition read_data {A D} (file_name : file A) (default : D) : M (A + D) :=
  fun w =>
    match content file_name (files w) with
    | Some a => (Ok (inl a), w)
    | None => (Ok (inr default), w)
    end.

(** A default of the stored type: either way a document of that type. *)
Definition merged {A} (x : A + A) : A :=
  match x with inl a => a | inr a => a end.

(** [save_data(file_name, data)]: overwrite the file. *)
Definition save_data {A} (f : file A) (data : A) : M unit :=
  fun w =>
    (Ok tt,
     World (MOVIE_API_TOKEN w) (overwrite f data (files w))
           (out w ++ [Dump (file_name f)])).

(** [raise Exception(msg, response.json())]: the arguments are evaluated
    first, so a body that does not parse raises from [.json()] instead. *)
Definition with_body {B} (msg : string) (body : option B) : exc :=
  match body with
  | Some _ => Exception msg
  | None => JSONDecodeError
  end.

(** [raise Exception(msg)] *)
Definition without_body {B} (msg : string) (body : option B) : exc :=
  Exception msg.

(** [requests.get(...)] followed by the status check and [.json()]:
    the body of the three [try] blocks up to the parsed document;
    [error] is the exception raised on a status other than 200. *)
Definition checked {B} (r : reply B) (error : option B -> exc) : result B :=
  match r with
  | Failed e => Raise e
  | Responded status_code body =>
      if negb (Z.eqb status_code 200)
      then Raise (error body)
      else match body with
           | Some b => Ok b
           | None => Raise JSONDecodeError
           end
  end.

(** [[movie["id"] for movie in movies]] *)
Fixpoint entry_ids (movies : list (option Z)) : result (list Z) :=
  match movies with
  | [] => Ok []
  | None :: _ => Raise (KeyError "id")
  | Some i :: movies' =>
      match entry_ids movies' with
      | Ok ids => Ok (i :: ids)
      | Raise e => Raise e
      end
  end.

Section Script.

Variable remote : api.
(** The order in which a [for] loop enumerates a set. *)
Variable set_iter : gset Z -> list Z.

Definition get_listing (page : Z) (token : string) : M (reply listing) :=
  fun w =>
    (Ok (discover_movie remote (out w) page token),
     World (MOVIE_API_TOKEN w) (files w)
           (out w ++ [Get (DiscoverMovie page token)])).

Definition get_movie (movie_id : Z) (token : string) : M (reply json) :=
  fun w =>
    (Ok (movie remote (out w) movie_id token),
     World (MOVIE_API_TOKEN w) (files w)
           (out w ++ [Get (MovieDetails movie_id token)])).

Definition get_credits (movie_id : Z) (token : string) : M (reply json) :=
  fun w =>
    (Ok (movie_credits remote (out w) movie_id token),
     World (MOVIE_API_TOKEN w) (files w)
           (out w ++ [Get (MovieCredits movie_id token)])).

Definition retreive_movies_id (page : Z) (token : string) : M (list Z) :=
  try_except
    (let* response := get_listing page token in
     let* body := lift (checked response (with_body "Error to retreive the movies data")) in
     let* movies :=
       lift (match body with
             | Some movies => Ok movies
             | None => Raise (KeyError "results")
             end) in
     let* new_movies_id := lift (entry_ids movies) in
     ret new_movies_id)
    (fun e => print (PageError page);; print (Shown e);; ret []).

Definition retreive_movies (movie_id : Z) (token : string) : M json :=
  try_except
    (let* response := get_movie movie_id token in
     let* movie_detail := lift (checked response (without_body "Unable to get the response")) in
     ret movie_detail)
    (fun e => print (MovieError movie_id);; print (Shown e);; ret (JDict [])).

Definition retreive_movies_crew (movie_id : Z) (token : string) : M json :=
  try_except
    (let* response := get_credits movie_id token in
     let* crew := lift (checked response (with_body "Error to retreive the credits data")) in
     ret crew)
    (fun e => print (CrewError movie_id);; print (Shown e);; ret (JDict [])).

Definition default_checkpoint : checkpoint := Checkpoint 1 10 500 [].

Definition save_movies_ids (token : string) : M unit :=
  let* loaded := read_data MOVIES_IDS_FILE_NAME default_checkpoint in
  let data_to_save := merged loaded in
  let pages :=
    range (page data_to_save) (page data_to_save + pages_per_run data_to_save) in
  if Z.geb (page data_to_save) (max_pages data_to_save)
  then raise (ValueError "max pages to read exceeded")
  else
    let* data_to_save :=
      for_ pages
        (fun page' (data_to_save : checkpoint) =>
           let* movie := retreive_movies_id page' token in
           print (SavingPage page');;
           ret (Checkpoint (page data_to_save) (pages_per_run data_to_save)
                           (max_pages data_to_save) (data data_to_save ++ movie)))
        data_to_save in
    let data_to_save :=
      Checkpoint (page data_to_save + pages_per_run data_to_save)
                 (pages_per_run data_to_save) (max_pages data_to_save)
                 (data data_to_save) in
    save_data MOVIES_IDS_FILE_NAME data_to_save.

Definition save_movies (movies_ids : list Z) (token : string) : M unit :=
  let* loaded := read_data MOVIES_FILE_NAME ([] : list json) in
  let movies := merged loaded in
  let* movies_ids_already_saved := lift (ids_of movies) in
  let* movies :=
    for_ movies_ids
      (fun movie_id (movies : list json) =>
         if negb (py_in movie_id movies_ids_already_saved)
         then
           let* movie := retreive_movies movie_id token in
           print (RetreivingMovie movie_id);;
           ret (movies ++ [movie])
         else ret movies)
      movies in
  save_data MOVIES_FILE_NAME movies.

Definition save_credits_data (movies_ids : list Z) (token : string) : M unit :=
  let* loaded := read_data CREDITS_FILE_NAME ([] : list json) in
  let credits := merged loaded in
  let* credits_already_saved := lift (ids_of credits) in
  let* credits :=
    for_ movies_ids
      (fun movie_id (credits : list json) =>
         if negb (py_in movie_id credits_already_saved)
         then
           let* credit := retreive_movies_crew movie_id token in
           let* id := lift (getitem credit "id") in
           print (ReadingCredit id);;
           ret (credits ++ [credit])
         else ret credits)
      credits in
  save_data CREDITS_FILE_NAME credits.

(** [set(data)] *)
Definition py_set (data : list Z) : gset Z := list_to_set data.

(** [set(read_data(MOVIES_IDS_FILE_NAME, [{"data": []}])["data"])]: the
    default is a list, and a list is not indexed by a string. *)
Definition dedup_ledger : M (gset Z) :=
  let* loaded := read_data MOVIES_IDS_FILE_NAME [JDict [("data", JList [])]] in
  let* ids :=
    lift (match loaded with
          | inl stored => Ok (data stored)
          | inr _ => Raise TypeError
          end) in
  ret (py_set ids).

Definition main : M unit :=
  fun w =>
    match
      (let* token := read_token in
       save_movies_ids token;;
       let* movies_ids := dedup_ledger in
       save_credits_data (set_iter movies_ids) token;;
       save_movies (set_iter movies_ids) token) w
    with
    | (Ok tt, w') => (Ok tt, w')
    | (Raise e, w') =>
        if is_ValueError e then print (Shown e) w' else (Raise e, w')
    end.

(** One turn of the loop under [if __name__ == "__main__"]. *)
Definition cycle (i : Z) : M unit :=
  print (Running i);; main;; emit (Sleep (60 * 5)).

(** [for i in qtds: ...] *)
Fixpoint cycles (qtds : list Z) : M unit :=
  match qtds with
  | [] => ret tt
  | i :: qtds' => cycle i;; cycles qtds'
  end.

Definition script : M unit := cycles (range 0 10).

End Script.

(** ** Observations on a run *)

(** The world after the events [evs] were added to its history. *)
Definition logged (w : world) (evs : list event) : world :=
  World (MOVIE_API_TOKEN w) (files w) (out w ++ evs).

(** The requests among some events, in order. *)
Definition requests (evs : list event) : list request :=
  flat_map (fun e => match e with Get r => [r] | _ => [] end) evs.

(** The files written among some events, in order. *)
Definition dumps (evs : list event) : list string :=
  flat_map (fun e => match e with Dump name => [name] | _ => [] end) evs.

(** The checkpoint Discovery starts from: the stored one, or the default. *)
Definition loaded_checkpoint (w : world) : checkpoint :=
  match movies_ids_json (files w) with
  | Some stored => stored
  | None => default_checkpoint
  end.

(** The documents a detail stage starts from. *)
Definition loaded_docs (f : file (list json)) (w : world) : list json :=
  match content f (files w) with
  | Some stored => stored
  | None => []
  end.

(** A reply from which the wrappers get no document. *)
Definition failed {B} (r : reply B) : bool :=
  match r with
  | Failed _ => true
  | Responded status_code body =>
      negb (Z.eqb status_code 200)
      || match body with Some _ => false | None => true end
  end.

(** What [retreive_movies] returns for a reply. *)
Definition detail_of (r : reply json) : json :=
  match checked r (without_body "Unable to get the response") with
  | Ok movie_detail => movie_detail
  | Raise _ => JDict []
  end.

(** The ids a detail stage asks for: those not among the stored ids. *)
Definition missing (saved : list json) (movies_ids : list Z) : list Z :=
  List.filter (fun movie_id => negb (py_in movie_id saved)) movies_ids.

(** ** Concrete runs *)

(** An API that cannot be reached. *)
Definition offline : api :=
  Api (fun _ _ _ => Failed ConnectionError)
      (fun _ _ _ => Failed ConnectionError)
      (fun _ _ _ => Failed ConnectionError).

(** The document [{"id": i}]. *)
Definition with_id (i : Z) : json := JDict [("id", JInt i)].

(** An API whose first listing page holds the movie 8 and whose later
    pages are empty; it answers every details request, and every credits
    request but the one for the movie 8, which does not get through. *)
Definition credits_down_for_8 : api :=
  Api (fun _ p _ =>
         Responded 200 (Some (Some (if Z.eqb p 1 then [Some 8] else []))))
      (fun _ i _ => Responded 200 (Some (with_id i)))
      (fun _ i _ =>
         if Z.eqb i 8 then Failed ConnectionError
         else Responded 200 (Some (with_id i))).

(** An API that answers every request but the details of the movie 8. *)
Definition details_down_for_8 : api :=
  Api (fun _ _ _ => Responded 200 (Some (Some [])))
      (fun _ i _ =>
         if Z.eqb i 8 then Failed ConnectionError
         else Responded 200 (Some (with_id i)))
      (fun _ i _ => Responded 200 (Some (with_id i))).

(** A first run: a token, no file yet. *)
Definition first_run : world := World (Some "secret") (Folder None None None) [].

(** A run without a token. *)
Definition no_token : world := World None (Folder None None None) [].

(** A run one page below the ceiling, and a run at the ceiling. *)
Definition below_ceiling : world :=
  World (Some "secret") (Folder (Some (Checkpoint 499 10 500 [7])) None None) [].

Definition at_ceiling : world :=
  World (Some "secret") (Folder (Some (Checkpoint 500 10 500 [7; 8])) None None) [].

(** A run over a backlog with a repeated id. *)
Definition backlog_7_8_7 : world :=
  World (Some "secret") (Folder (Some (Checkpoint 2 1 500 [7; 8; 7])) None None) [].

(** A run whose movies store holds the movie 7. *)
Definition movie_7_stored : world :=
  World (Some "secret") (Folder None None (Some [with_id 7])) [].

(** ** Further observations *)

(** What [retreive_movies_id] returns for a reply: the ids of the page when
    the status is 200, the document parses, has results and every entry
    has an id; else the empty list. *)
Definition listed (r : reply listing) : list Z :=
  match r with
  | Responded status_code (Some (Some movies)) =>
      if Z.eqb status_code 200
      then match entry_ids movies with
           | Ok ids => ids
           | Raise _ => []
           end
      else []
  | _ => []
  end.

(** What [retreive_movies_crew] returns for a reply. *)
Definition crew_of (r : reply json) : json :=
  match checked r (with_body "Error to retreive the credits data") with
  | Ok crew => crew
  | Raise _ => JDict []
  end.

(** A document whose [id] field can be read. *)
Definition readable (m : json) : Prop := exists v, getitem m "id" = Ok v.

(** The pauses among some events, and the numbers of the cycles announced. *)
Definition sleeps (evs : list event) : list Z :=
  flat_map (fun e => match e with Sleep seconds => [seconds] | _ => [] end) evs.

Definition runnings (evs : list event) : list Z :=
  flat_map (fun e => match e with Print (Running i) => [i] | _ => [] end) evs.

(** An event of a stage: anything but a pause or the announcement of a
    cycle, which belong to the loop of the script. *)
Definition of_stage (e : event) : Prop :=
  match e with
  | Sleep _ | Print (Running _) => False
  | _ => True
  end.

(** An API that answers every request: the first listing page holds the
    movies 7, 8 and again 7, the later pages are empty, and the document of
    a movie, details or credits, carries its id. *)
Definition online : api :=
  Api (fun _ p _ =>
         Responded 200 (Some (Some (if Z.eqb p 1 then [Some 7; Some 8; Some 7]
                                    else []))))
      (fun _ i _ => Responded 200 (Some (with_id i)))
      (fun _ i _ => Responded 200 (Some (with_id i))).

(** A run whose checkpoint never asks for a page. *)
Definition no_pages : world :=
  World (Some "secret") (Folder (Some (Checkpoint 3 0 500 [7])) None None) [].

(** ** Basic facts about the monad and the observations *)

Lemma logged_nil (w : world) : logged w [] = w.
Proof. destruct w; unfold logged; simpl. now rewrite app_nil_r. Qed.

Lemma logged_logged (w : world) (evs evs' : list event) :
  logged (logged w evs) evs' = logged w (evs ++ evs').
Proof. unfold logged; simpl. now rewrite app_assoc. Qed.

Lemma emit_run (e : event) (w : world) : emit e w = (Ok tt, logged w [e]).
Proof. reflexivity. Qed.

Lemma print_run (l : line) (w : world) : print l w = (Ok tt, logged w [Print l]).
Proof. reflexivity. Qed.

Lemma requests_app (evs evs' : list event) :
  requests (evs ++ evs') = requests evs ++ requests evs'.
Proof. unfold requests. now rewrite flat_map_app. Qed.

Lemma requests_cons (e : event) (evs : list event) :
  requests (e :: evs) = requests [e] ++ requests evs.
Proof. apply (requests_app [e]). Qed.

Lemma dumps_cons (e : event) (evs : list event) :
  dumps (e :: evs) = dumps [e] ++ dumps evs.
Proof. unfold dumps. apply (flat_map_app _ [e]). Qed.

Lemma dumps_app (evs evs' : list event) :
  dumps (evs ++ evs') = dumps evs ++ dumps evs'.
Proof. unfold dumps. now rewrite flat_map_app. Qed.

Lemma in_range (a b p : Z) : a <= p < b -> In p (range a b).
Proof.
  intros Hp. unfold range. apply in_map_iff.
  exists (Z.to_nat (p - a)). split; [lia|].
  apply in_seq. lia.
Qed.

Lemma checked_failed {B} (r : reply B) (error : option B -> exc) :
  failed r = true -> exists e, checked r error = Raise e.
Proof.
  destruct r as [e|status_code body]; simpl; [now exists e|].
  destruct (negb (Z.eqb status_code 200)); simpl; [now eexists|].
  destruct body; simpl; [discriminate|now eexists].
Qed.

Lemma detail_of_failed (r : reply json) : failed r = true -> detail_of r = JDict [].
Proof.
  intros H. unfold detail_of.
  destruct (checked_failed r (without_body "Unable to get the response") H) as [e ->].
  reflexivity.
Qed.

(** ** Discovery *)

Section Discovery.

Variable remote : api.
Variable token : string.

(** A listing request never raises: it yields ids, possibly none, after
    one request and some printed lines. *)
Lemma retreive_movies_id_run (p : Z) (w : world) :
  exists ids prints,
    retreive_movies_id remote p token w
    = (Ok ids, logged w (Get (DiscoverMovie p token) :: prints))
    /\ requests prints = [] /\ dumps prints = [].
Proof.
  unfold retreive_movies_id, try_except, bind, get_listing, lift, ret, print.
  simpl.
  destruct (checked (discover_movie remote (out w) p token) _) as [[movies|]|e];
    simpl.
  - destruct (entry_ids movies) as [ids|e]; simpl.
    + exists ids, []. now split.
    + exists [], [Print (PageError p); Print (Shown e)].
      unfold emit, logged; simpl. rewrite <- !app_assoc. now split.
  - exists [], [Print (PageError p); Print (Shown (KeyError "results"))].
    unfold emit, logged; simpl. rewrite <- !app_assoc. now split.
  - exists [], [Print (PageError p); Print (Shown e)].
    unfold emit, logged; simpl. rewrite <- !app_assoc. now split.
Qed.

(** The loop over the pages: it only extends [data], one request a page. *)
Lemma pages_loop_run (pages : list Z) (c : checkpoint) (w : world) :
  exists extra evs,
    for_ pages
      (fun page' (data_to_save : checkpoint) =>
         let* movie := retreive_movies_id remote page' token in
         print (SavingPage page');;
         ret (Checkpoint (page data_to_save) (pages_per_run data_to_save)
                         (max_pages data_to_save) (data data_to_save ++ movie)))
      c w
    = (Ok (Checkpoint (page c) (pages_per_run c) (max_pages c) (data c ++ extra)),
       logged w evs)
    /\ requests evs = map (fun p => DiscoverMovie p token) pages
    /\ dumps evs = [].
Proof.
  revert c w. induction pages as [|p pages IH]; intros c w.
  - exists [], []. simpl. unfold ret. rewrite logged_nil, app_nil_r.
    now destruct c.
  - simpl. unfold bind at 1. unfold bind at 1.
    destruct (retreive_movies_id_run p w) as (ids & prints & -> & Hreq & Hdump).
    unfold bind at 1. rewrite print_run. unfold ret at 1.
    rewrite logged_logged.
    set (c' := Checkpoint _ _ _ _).
    destruct (IH c' (logged w ((Get (DiscoverMovie p token) :: prints)
                                 ++ [Print (SavingPage p)])))
      as (extra & evs & -> & Hreq' & Hdump').
    exists (ids ++ extra),
      (Get (DiscoverMovie p token) :: prints ++ Print (SavingPage p) :: evs).
    split; [|split].
    + rewrite logged_logged. subst c'; simpl. rewrite <- !app_assoc. reflexivity.
    + rewrite requests_cons, requests_app, (requests_cons (Print _)).
      rewrite Hreq, Hreq'. reflexivity.
    + rewrite dumps_cons, dumps_app, (dumps_cons (Print _)).
      rewrite Hdump, Hdump'. reflexivity.
Qed.

(** A run that starts below the ceiling. *)
Lemma save_movies_ids_run (w : world) :
  let c := loaded_checkpoint w in
  page c < max_pages c ->
  exists extra evs,
    save_movies_ids remote token w
    = (Ok tt,
       World (MOVIE_API_TOKEN w)
             (overwrite MOVIES_IDS_FILE_NAME
                (Checkpoint (page c + pages_per_run c) (pages_per_run c)
                            (max_pages c) (data c ++ extra))
                (files w))
             (out w ++ evs ++ [Dump "movies_ids.json"]))
    /\ requests evs
       = map (fun p => DiscoverMovie p token)
             (range (page c) (page c + pages_per_run c))
    /\ dumps evs = [].
Proof.
  intros c Hlt.
  assert (Hload : read_data MOVIES_IDS_FILE_NAME default_checkpoint w
                  = (Ok (match movies_ids_json (files w) with
                         | Some a => inl a | None => inr default_checkpoint
                         end), w)).
  { unfold read_data; simpl. now destruct (movies_ids_json (files w)). }
  unfold save_movies_ids. unfold bind at 1. rewrite Hload.
  assert (Hc : merged (match movies_ids_json (files w) with
                       | Some a => inl a | None => inr default_checkpoint
                       end) = c).
  { unfold c, loaded_checkpoint. now destruct (movies_ids_json (files w)). }
  rewrite Hc.
  replace (Z.geb (page c) (max_pages c)) with false by (symmetry; lia).
  unfold bind at 1.
  destruct (pages_loop_run (range (page c) (page c + pages_per_run c)) c w)
    as (extra & evs & -> & Hreq & Hdump).
  exists extra, evs. split; [|now split].
  unfold save_data, logged; simpl. now rewrite <- app_assoc.
Qed.

(** A run that starts at or above the ceiling. *)
Lemma save_movies_ids_rejected (w : world) :
  page (loaded_checkpoint w) >= max_pages (loaded_checkpoint w) ->
  save_movies_ids remote token w
  = (Raise (ValueError "max pages to read exceeded"), w).
Proof.
  intros Hge. unfold save_movies_ids, bind, read_data, loaded_checkpoint in *.
  simpl. destruct (movies_ids_json (files w)) as [c|]; simpl in *.
  - replace (Z.geb (page c) (max_pages c)) with true by (symmetry; lia). reflexivity.
  - lia.
Qed.

End Discovery.

(** ** The detail stages *)

Lemma missing_Permutation (saved : list json) (l l' : list Z) :
  l ≡ₚ l' -> missing saved l ≡ₚ missing saved l'.
Proof.
  unfold missing. induction 1 as [|x l l' _ IH|x y l|l l' l'' _ IH _ IH']; simpl.
  - constructor.
  - destruct (negb (py_in x saved)); [now constructor|assumption].
  - destruct (negb (py_in x saved)), (negb (py_in y saved));
      try reflexivity. constructor.
  - now transitivity (List.filter (fun i => negb (py_in i saved)) l').
Qed.

Lemma missing_cons (saved : list json) (i : Z) (ids : list Z) :
  missing saved (i :: ids)
  = if negb (py_in i saved) then i :: missing saved ids else missing saved ids.
Proof. reflexivity. Qed.

Lemma missing_not_saved (saved : list json) (ids : list Z) (id : Z) :
  py_in id saved = true -> ~ In id (missing saved ids).
Proof.
  intros Hin Hmiss. apply filter_In in Hmiss as [_ Hneg].
  rewrite Hin in Hneg. discriminate.
Qed.

Lemma in_missing (saved : list json) (ids : list Z) (id : Z) :
  In id ids -> py_in id saved = false -> In id (missing saved ids).
Proof. intros Hin Hnot. apply filter_In. now rewrite Hnot. Qed.

(** The ids read from a store contain the id of each of its documents. *)
Lemma ids_of_In (docs saved : list json) (m v : json) :
  ids_of docs = Ok saved -> In m docs -> getitem m "id" = Ok v -> In v saved.
Proof.
  revert saved. induction docs as [|d docs IH]; intros saved Hids Hin Hget.
  - destruct Hin.
  - simpl in Hids. destruct (getitem d "id") as [vd|e] eqn:Hd; [|discriminate].
    destruct (ids_of docs) as [vs|e] eqn:Hvs; [|discriminate].
    injection Hids as <-. destruct Hin as [->|Hin].
    + left. congruence.
    + right. now apply IH.
Qed.

(** A store with a document that has no readable id cannot be scanned. *)
Lemma ids_of_unreadable (docs : list json) (m : json) (e : exc) :
  In m docs -> getitem m "id" = Raise e -> exists e', ids_of docs = Raise e'.
Proof.
  induction docs as [|d docs IH]; intros Hin Hget; [destruct Hin|].
  simpl. destruct (getitem d "id") as [vd|ed] eqn:Hd; [|now exists ed].
  destruct Hin as [->|Hin]; [congruence|].
  destruct (IH Hin Hget) as [e' ->]. now exists e'.
Qed.

Lemma py_in_In (id : Z) (v : json) (saved : list json) :
  In v saved -> int_eq id v = true -> py_in id saved = true.
Proof.
  intros Hin Heq. unfold py_in. apply existsb_exists. now exists v.
Qed.

Section Details.

Variable remote : api.
Variable token : string.

(** A detail request never raises: it yields the document, or [{}]. *)
Lemma retreive_movies_run (id : Z) (w : world) :
  exists prints,
    retreive_movies remote id token w
    = (Ok (detail_of (movie remote (out w) id token)),
       logged w (Get (MovieDetails id token) :: prints))
    /\ requests prints = [] /\ dumps prints = [].
Proof.
  unfold retreive_movies, try_except, bind, get_movie, lift, ret, detail_of.
  simpl.
  destruct (checked (movie remote (out w) id token) _) as [d|e]; simpl.
  - exists []. now split.
  - exists [Print (MovieError id); Print (Shown e)].
    unfold print, emit, logged; simpl. rewrite <- !app_assoc. now split.
Qed.

(** The loop of [save_movies]: one request and one document for each id
    that is not among the stored ids, in the order of enumeration. *)
Lemma movies_loop_run (saved : list json) (ids : list Z) (movies : list json)
    (w : world) :
  exists docs evs,
    for_ ids
      (fun movie_id (movies : list json) =>
         if negb (py_in movie_id saved)
         then
           let* movie := retreive_movies remote movie_id token in
           print (RetreivingMovie movie_id);;
           ret (movies ++ [movie])
         else ret movies)
      movies w
    = (Ok (movies ++ docs), logged w evs)
    /\ requests evs = map (fun i => MovieDetails i token) (missing saved ids)
    /\ dumps evs = []
    /\ Forall2 (fun i d => exists h, d = detail_of (movie remote h i token))
               (missing saved ids) docs.
Proof.
  revert movies w. induction ids as [|i ids IH]; intros movies w.
  - exists [], []. simpl. unfold ret. rewrite logged_nil, app_nil_r.
    repeat split. constructor.
  - cbn [for_]. unfold bind at 1. rewrite missing_cons.
    destruct (negb (py_in i saved)) eqn:Hi.
    + unfold bind at 1.
      destruct (retreive_movies_run i w) as (prints & -> & Hreq & Hdump).
      unfold bind at 1. rewrite print_run. unfold ret at 1.
      rewrite logged_logged.
      destruct (IH (movies ++ [detail_of (movie remote (out w) i token)])
                   (logged w ((Get (MovieDetails i token) :: prints)
                                ++ [Print (RetreivingMovie i)])))
        as (docs & evs & -> & Hreq' & Hdump' & Hdocs).
      exists (detail_of (movie remote (out w) i token) :: docs),
        (Get (MovieDetails i token) :: prints
           ++ Print (RetreivingMovie i) :: evs).
      split; [|split; [|split]].
      * rewrite logged_logged. simpl. rewrite <- !app_assoc. reflexivity.
      * rewrite requests_cons, requests_app, (requests_cons (Print _)).
        rewrite Hreq, Hreq'. reflexivity.
      * rewrite dumps_cons, dumps_app, (dumps_cons (Print _)).
        rewrite Hdump, Hdump'. reflexivity.
      * constructor; [now exists (out w)|assumption].
    + unfold ret at 1.
      destruct (IH movies w) as (docs & evs & -> & Hreq' & Hdump' & Hdocs).
      exists docs, evs. now repeat split.
Qed.

(** The movies stage on a store whose ids can all be read. *)
Lemma save_movies_run (ids : list Z) (saved : list json) (w : world) :
  ids_of (loaded_docs MOVIES_FILE_NAME w) = Ok saved ->
  exists docs evs,
    save_movies remote ids token w
    = (Ok tt,
       World (MOVIE_API_TOKEN w)
             (overwrite MOVIES_FILE_NAME
                (loaded_docs MOVIES_FILE_NAME w ++ docs) (files w))
             (out w ++ evs ++ [Dump "movies.json"]))
    /\ requests evs = map (fun i => MovieDetails i token) (missing saved ids)
    /\ dumps evs = []
    /\ Forall2 (fun i d => exists h, d = detail_of (movie remote h i token))
               (missing saved ids) docs.
Proof.
  intros Hsaved. unfold save_movies. unfold bind at 1.
  assert (Hload : read_data MOVIES_FILE_NAME ([] : list json) w
                  = (Ok (match movies_json (files w) with
                         | Some a => inl a | None => inr []
                         end), w)).
  { unfold read_data; simpl. now destruct (movies_json (files w)). }
  rewrite Hload.
  replace (merged _) with (loaded_docs MOVIES_FILE_NAME w)
    by (unfold loaded_docs; simpl; now destruct (movies_json (files w))).
  unfold bind at 1. unfold lift at 1. rewrite Hsaved.
  unfold bind at 1.
  destruct (movies_loop_run saved ids (loaded_docs MOVIES_FILE_NAME w) w)
    as (docs & evs & -> & Hreq & Hdump & Hdocs).
  exists docs, evs. split; [|now repeat split].
  unfold save_data, logged; simpl. now rewrite <- app_assoc.
Qed.

(** The movies stage on a store with a document whose id cannot be read:
    the scan raises before any request, and nothing is written. *)
Lemma save_movies_unreadable (ids : list Z) (e : exc) (w : world) :
  ids_of (loaded_docs MOVIES_FILE_NAME w) = Raise e ->
  save_movies remote ids token w = (Raise e, w).
Proof.
  intros Hsaved. unfold save_movies. unfold bind at 1.
  assert (Hload : read_data MOVIES_FILE_NAME ([] : list json) w
                  = (Ok (match movies_json (files w) with
                         | Some a => inl a | None => inr []
                         end), w)).
  { unfold read_data; simpl. now destruct (movies_json (files w)). }
  rewrite Hload.
  replace (merged _) with (loaded_docs MOVIES_FILE_NAME w)
    by (unfold loaded_docs; simpl; now destruct (movies_json (files w))).
  unfold bind at 1. unfold lift at 1. rewrite Hsaved. reflexivity.
Qed.

(** A credits request never raises either. *)
Lemma retreive_movies_crew_failed (id : Z) (w : world) :
  failed (movie_credits remote (out w) id token) = true ->
  exists e,
    retreive_movies_crew remote id token w
    = (Ok (JDict []),
       logged w [Get (MovieCredits id token); Print (CrewError id);
                 Print (Shown e)]).
Proof.
  intros Hfail.
  destruct (checked_failed _ (with_body "Error to retreive the credits data")
              Hfail) as [e He].
  exists e.
  unfold retreive_movies_crew, try_except, bind, get_credits, lift, ret.
  simpl. rewrite He. unfold print, emit, logged; simpl.
  rewrite <- !app_assoc. reflexivity.
Qed.

(** The credits stage when the request for its first candidate fails:
    the printed line reads [credit["id"]] of the empty document. *)
Lemma save_credits_data_failed (id : Z) (rest : list Z) (saved : list json)
    (w : world) :
  ids_of (loaded_docs CREDITS_FILE_NAME w) = Ok saved ->
  py_in id saved = false ->
  failed (movie_credits remote (out w) id token) = true ->
  exists e,
    save_credits_data remote (id :: rest) token w
    = (Raise (KeyError "id"),
       logged w [Get (MovieCredits id token); Print (CrewError id);
                 Print (Shown e)]).
Proof.
  intros Hsaved Hnot Hfail. unfold save_credits_data. unfold bind at 1.
  assert (Hload : read_data CREDITS_FILE_NAME ([] : list json) w
                  = (Ok (match credits_json (files w) with
                         | Some a => inl a | None => inr []
                         end), w)).
  { unfold read_data; simpl. now destruct (credits_json (files w)). }
  rewrite Hload.
  replace (merged _) with (loaded_docs CREDITS_FILE_NAME w)
    by (unfold loaded_docs; simpl; now destruct (credits_json (files w))).
  unfold bind at 1. unfold lift at 1. rewrite Hsaved.
  unfold bind at 1. simpl. rewrite Hnot. simpl.
  unfold bind at 1. unfold bind at 1.
  destruct (retreive_movies_crew_failed id w Hfail) as [e ->].
  exists e. reflexivity.
Qed.

End Details.

(** ** The claims about Discovery *)

(** C1. From a checkpoint whose page is below [max_pages], one run of
    Discovery ends normally and writes a checkpoint whose page is the
    loaded page plus [pages_per_run], whatever the API answers: the run
    sends one listing request for each page of the range, and what each
    request yields (ids, or nothing at all) does not enter the new page. *)
Theorem discovery_advances_page
    (remote : api) (token : string) (w : world) (c : checkpoint) :
  loaded_checkpoint w = c ->
  page c < max_pages c ->
  exists w' evs persisted,
    save_movies_ids remote token w = (Ok tt, w')
    /\ out w' = out w ++ evs
    /\ requests evs
       = map (fun p => DiscoverMovie p token)
             (range (page c) (page c + pages_per_run c))
    /\ movies_ids_json (files w') = Some persisted
    /\ page persisted = page c + pages_per_run c.
Proof.
  intros <- Hlt.
  destruct (save_movies_ids_run remote token w Hlt)
    as (extra & evs & Hrun & Hreq & _).
  eexists _, (evs ++ [Dump "movies_ids.json"]), _.
  split; [exact Hrun|]. simpl. split; [reflexivity|]. split.
  - rewrite requests_app, Hreq. simpl. now rewrite app_nil_r.
  - split; reflexivity.
Qed.

Lemma discovery_advances_page_witness :
  exists w' evs persisted,
    save_movies_ids offline "secret" first_run = (Ok tt, w')
    /\ out w' = out first_run ++ evs
    /\ requests evs = map (fun p => DiscoverMovie p "secret") (range 1 (1 + 10))
    /\ movies_ids_json (files w') = Some persisted
    /\ page persisted = 1 + 10.
Proof.
  apply (discovery_advances_page offline "secret" first_run default_checkpoint).
  - reflexivity.
  - simpl. lia.
Defined.

(** C2. From a checkpoint whose page is at or above [max_pages], Discovery
    raises [ValueError] and leaves the world as it was: no request is
    sent, no line printed, no file written. *)
Theorem discovery_rejected_at_ceiling
    (remote : api) (token : string) (w : world) (c : checkpoint) :
  loaded_checkpoint w = c ->
  page c >= max_pages c ->
  save_movies_ids remote token w
  = (Raise (ValueError "max pages to read exceeded"), w).
Proof.
  intros <- Hge. now apply save_movies_ids_rejected.
Qed.

Lemma discovery_rejected_at_ceiling_witness :
  save_movies_ids offline "secret" at_ceiling
  = (Raise (ValueError "max pages to read exceeded"), at_ceiling).
Proof.
  apply (discovery_rejected_at_ceiling offline "secret" at_ceiling
           (Checkpoint 500 10 500 [7; 8])).
  - reflexivity.
  - simpl. lia.
Defined.

(** C9. After a run of Discovery from a checkpoint whose page is below
    [max_pages], the written checkpoint has the loaded [pages_per_run] and
    [max_pages], and its [data] is the loaded [data] followed by the ids
    found: nothing is removed or reordered. *)
Theorem discovery_only_appends
    (remote : api) (token : string) (w : world) (c : checkpoint) :
  loaded_checkpoint w = c ->
  page c < max_pages c ->
  exists w' persisted extra,
    save_movies_ids remote token w = (Ok tt, w')
    /\ movies_ids_json (files w') = Some persisted
    /\ pages_per_run persisted = pages_per_run c
    /\ max_pages persisted = max_pages c
    /\ data persisted = data c ++ extra.
Proof.
  intros <- Hlt.
  destruct (save_movies_ids_run remote token w Hlt)
    as (extra & evs & Hrun & _).
  eexists _, _, extra. split; [exact Hrun|]. simpl. repeat split.
Qed.

Lemma discovery_only_appends_witness :
  exists w' persisted extra,
    save_movies_ids credits_down_for_8 "secret" below_ceiling = (Ok tt, w')
    /\ movies_ids_json (files w') = Some persisted
    /\ pages_per_run persisted = 10
    /\ max_pages persisted = 500
    /\ data persisted = [7] ++ extra.
Proof.
  apply (discovery_only_appends credits_down_for_8 "secret" below_ceiling
           (Checkpoint 499 10 500 [7])).
  - reflexivity.
  - simpl. lia.
Defined.

(** C10. From a checkpoint with [page < max_pages < page + pages_per_run],
    Discovery runs, requests every page from [max_pages] up to the end of
    its range, and writes a checkpoint whose page is above [max_pages]: the
    ceiling is compared with the first page of a run only. *)
Theorem discovery_overshoots_ceiling
    (remote : api) (token : string) (w : world) (c : checkpoint) :
  loaded_checkpoint w = c ->
  page c < max_pages c ->
  max_pages c < page c + pages_per_run c ->
  exists w' evs persisted,
    save_movies_ids remote token w = (Ok tt, w')
    /\ out w' = out w ++ evs
    /\ (forall p, max_pages c <= p < page c + pages_per_run c ->
                  In (DiscoverMovie p token) (requests evs))
    /\ movies_ids_json (files w') = Some persisted
    /\ page persisted > max_pages c.
Proof.
  intros <- Hlt Hover.
  destruct (save_movies_ids_run remote token w Hlt)
    as (extra & evs & Hrun & Hreq & _).
  eexists _, (evs ++ [Dump "movies_ids.json"]), _.
  split; [exact Hrun|]. simpl. split; [reflexivity|]. split; [|split].
  - intros p Hp. rewrite requests_app, Hreq. apply in_or_app. left.
    apply (in_map (fun p => DiscoverMovie p token)). apply in_range. lia.
  - reflexivity.
  - simpl. lia.
Qed.

Lemma discovery_overshoots_ceiling_witness :
  exists w' evs persisted,
    save_movies_ids offline "secret" below_ceiling = (Ok tt, w')
    /\ out w' = out below_ceiling ++ evs
    /\ (forall p, 500 <= p < 499 + 10 ->
                  In (DiscoverMovie p "secret") (requests evs))
    /\ movies_ids_json (files w') = Some persisted
    /\ page persisted > 500.
Proof.
  apply (discovery_overshoots_ceiling offline "secret" below_ceiling
           (Checkpoint 499 10 500 [7])).
  - reflexivity.
  - simpl. lia.
  - simpl. lia.
Defined.

(** ** The claims about the detail stages *)

Lemma Forall2_In_l {A B} (R : A -> B -> Prop) (l : list A) (l' : list B) (x : A) :
  Forall2 R l l' -> In x l -> exists y, In y l' /\ R x y.
Proof.
  induction 1 as [|a b l l' Hab _ IH]; intros Hin; [destruct Hin|].
  destruct Hin as [->|Hin].
  - exists b. split; [now left|assumption].
  - destruct (IH Hin) as (y & Hy & HR). exists y. split; [now right|assumption].
Qed.

(** C3. An id that some stored movie carries in its [id] field is not
    requested by the movies stage and gets no new document: the requests
    of a run and the documents it appends match the ids it found missing,
    one for one, and the id is not among them.  With the store [{id: 7}]
    and the ids of the set {7, 8}, in whatever order the set is
    enumerated, the only request is for 8, one document is appended, and
    a store of two documents is written. *)
Theorem movies_stage_skips_stored
    (remote : api) (set_iter : gset Z -> list Z) (token : string)
    (w : world) (ids : list Z) (id : Z) (m v : json) :
  (forall s, set_iter s ≡ₚ elements s) ->
  In m (loaded_docs MOVIES_FILE_NAME w) ->
  getitem m "id" = Ok v ->
  int_eq id v = true ->
  (exists r w' evs fetched docs,
      save_movies remote ids token w = (r, w')
      /\ out w' = out w ++ evs
      /\ requests evs = map (fun i => MovieDetails i token) fetched
      /\ ~ In id fetched
      /\ Forall2 (fun i d => exists h, d = detail_of (movie remote h i token))
                 fetched docs
      /\ ((r = Ok tt
           /\ movies_json (files w')
              = Some (loaded_docs MOVIES_FILE_NAME w ++ docs))
          \/ (exists e, r = Raise e /\ w' = w /\ docs = [])))
  /\ (forall env ids_file credits_file history,
        exists doc evs,
          save_movies remote (set_iter {[7; 8]}) token
            (World env (Folder ids_file credits_file (Some [with_id 7])) history)
          = (Ok tt,
             World env (Folder ids_file credits_file (Some [with_id 7; doc]))
                   (history ++ evs ++ [Dump "movies.json"]))
          /\ requests evs = [MovieDetails 8 token]
          /\ dumps evs = []).
Proof.
  intros Hiter Hm Hget Heq. split.
  - destruct (ids_of (loaded_docs MOVIES_FILE_NAME w)) as [saved|e] eqn:Hsaved.
    + destruct (save_movies_run remote token ids saved w Hsaved)
        as (docs & evs & Hrun & Hreq & _ & Hdocs).
      eexists (Ok tt), _, (evs ++ [Dump "movies.json"]), (missing saved ids), docs.
      split; [exact Hrun|]. simpl. split; [reflexivity|]. split; [|split; [|split]].
      * rewrite requests_app, Hreq. simpl. now rewrite app_nil_r.
      * apply missing_not_saved. apply (py_in_In id v); [|assumption].
        now apply (ids_of_In _ _ m v Hsaved).
      * assumption.
      * left. now split.
    + exists (Raise e), w, [], [], []. split.
      * now apply save_movies_unreadable.
      * rewrite app_nil_r. repeat split; [tauto|constructor|].
        right. now exists e.
  - intros env ids_file credits_file history.
    set (w7 := World env (Folder ids_file credits_file (Some [with_id 7])) history).
    destruct (save_movies_run remote token (set_iter {[7; 8]}) [JInt 7] w7
                eq_refl)
      as (docs & evs & Hrun & Hreq & Hdump & Hdocs).
    assert (Hmiss : missing [JInt 7] (set_iter {[7; 8]}) = [8]).
    { apply Permutation_singleton_r.
      rewrite (missing_Permutation _ _ _ (Hiter {[7; 8]})).
      now vm_compute. }
    rewrite Hmiss in Hreq, Hdocs.
    inversion Hdocs as [|i doc l docs' _ Hnil]; subst.
    inversion Hnil; subst.
    exists doc, evs. split; [exact Hrun|]. now split.
Qed.

Lemma movies_stage_skips_stored_witness :
  exists doc evs,
    save_movies credits_down_for_8 (elements ({[7; 8]} : gset Z)) "secret"
      movie_7_stored
    = (Ok tt,
       World (Some "secret") (Folder None None (Some [with_id 7; doc]))
             ([] ++ evs ++ [Dump "movies.json"]))
    /\ requests evs = [MovieDetails 8 "secret"]
    /\ dumps evs = [].
Proof.
  apply (proj2 (movies_stage_skips_stored credits_down_for_8 elements "secret"
                  movie_7_stored [7; 8] 7 (with_id 7) (JInt 7)
                  (fun s => Permutation_refl (elements s))
                  (or_introl eq_refl) eq_refl eq_refl)).
Defined.

(** C4. When every details request for an id fails, the movies stage
    still ends normally and the store it writes holds the empty document
    appended for that id.  A later run of the stage on that store, whatever
    the API then answers, sends no request for the id: reading the [id]
    field of each stored document raises at one that has none, before any
    request, and the run ends there with the world unchanged. *)
Theorem failed_detail_is_stored
    (remote remote' : api) (token token' : string) (ids ids' : list Z) (id : Z)
    (saved : list json) (w : world) :
  ids_of (loaded_docs MOVIES_FILE_NAME w) = Ok saved ->
  In id ids ->
  py_in id saved = false ->
  (forall h, failed (movie remote h id token) = true) ->
  exists w1 docs,
    save_movies remote ids token w = (Ok tt, w1)
    /\ movies_json (files w1) = Some (loaded_docs MOVIES_FILE_NAME w ++ docs)
    /\ In (JDict []) docs
    /\ exists r2 w2 evs2,
         save_movies remote' ids' token' w1 = (r2, w2)
         /\ out w2 = out w1 ++ evs2
         /\ ~ In (MovieDetails id token') (requests evs2)
         /\ (exists e, r2 = Raise e)
         /\ w2 = w1.
Proof.
  intros Hsaved Hin Hnot Hfail.
  destruct (save_movies_run remote token ids saved w Hsaved)
    as (docs & evs & Hrun & _ & _ & Hdocs).
  destruct (Forall2_In_l _ _ _ id Hdocs (in_missing _ _ _ Hin Hnot))
    as (d & Hd & h & ->).
  rewrite (detail_of_failed _ (Hfail h)) in Hd.
  eexists _, docs. split; [exact Hrun|]. split; [reflexivity|]. split; [exact Hd|].
  set (w1 := World _ _ _).
  assert (Hstored : loaded_docs MOVIES_FILE_NAME w1
                    = loaded_docs MOVIES_FILE_NAME w ++ docs) by reflexivity.
  destruct (ids_of_unreadable (loaded_docs MOVIES_FILE_NAME w1) (JDict [])
              (KeyError "id")) as [e He].
  { rewrite Hstored. apply in_or_app. now right. }
  { reflexivity. }
  exists (Raise e), w1, []. split.
  - now apply save_movies_unreadable.
  - rewrite app_nil_r. repeat split; [tauto|now exists e].
Qed.

Lemma failed_detail_is_stored_witness :
  exists w1 docs,
    save_movies details_down_for_8 [7; 8] "secret" first_run = (Ok tt, w1)
    /\ movies_json (files w1) = Some ([] ++ docs)
    /\ In (JDict []) docs
    /\ exists r2 w2 evs2,
         save_movies credits_down_for_8 [7; 8] "secret" w1 = (r2, w2)
         /\ out w2 = out w1 ++ evs2
         /\ ~ In (MovieDetails 8 "secret") (requests evs2)
         /\ (exists e, r2 = Raise e)
         /\ w2 = w1.
Proof.
  apply (failed_detail_is_stored details_down_for_8 credits_down_for_8
           "secret" "secret" [7; 8] [7; 8] 8 [] first_run).
  - reflexivity.
  - simpl. tauto.
  - reflexivity.
  - intros h. reflexivity.
Defined.

(** C6. The credits stage at a candidate whose request fails.  With no
    credits stored and the candidates 8 and 9, the request for 8 failing:
    the stage raises [KeyError] while it formats the line it prints for
    the empty document; nothing is appended, no request is sent for 9, and
    no file is written.  The movies stage on the same candidates, the
    request for 8 failing alike, appends the empty document, goes on to 9
    and writes the store. *)
Theorem credits_stage_stops_at_failed_fetch :
  save_credits_data credits_down_for_8 [8; 9] "secret" first_run
  = (Raise (KeyError "id"),
     World (Some "secret") (Folder None None None)
           [Get (MovieCredits 8 "secret"); Print (CrewError 8);
            Print (Shown ConnectionError)])
  /\ save_movies details_down_for_8 [8; 9] "secret" first_run
     = (Ok tt,
        World (Some "secret") (Folder None None (Some [JDict []; with_id 9]))
              [Get (MovieDetails 8 "secret"); Print (MovieError 8);
               Print (Shown ConnectionError); Print (RetreivingMovie 8);
               Get (MovieDetails 9 "secret"); Print (RetreivingMovie 9);
               Dump "movies.json"]).
Proof. split; reflexivity. Qed.

(** ** The claims about a cycle *)

(** C5. A failure inside a stage that reaches the top.  On a first run
    whose first listing page holds the movie 8, the credits request for 8
    failing: the wrapper absorbs the failure and returns the empty
    document, the credits stage raises [KeyError] on it, [main] handles
    [ValueError] only, and the script ends in its first cycle with that
    exception, before the movies stage and with no credits written. *)
Theorem stage_failure_reaches_top :
  fst (main credits_down_for_8 elements first_run) = Raise (KeyError "id")
  /\ fst (script credits_down_for_8 elements first_run) = Raise (KeyError "id")
  /\ requests (out (snd (script credits_down_for_8 elements first_run)))
     = map (fun p => DiscoverMovie p "secret") (range 1 11)
       ++ [MovieCredits 8 "secret"]
  /\ dumps (out (snd (script credits_down_for_8 elements first_run)))
     = ["movies_ids.json"].
Proof. repeat split; now vm_compute. Qed.

Lemma read_token_missing (w : world) :
  MOVIE_API_TOKEN w = None \/ MOVIE_API_TOKEN w = Some "" ->
  read_token w = (Raise (ValueError "missing movies api token"), w).
Proof. unfold read_token. now intros [-> | ->]. Qed.

Section Cycles.

Variable remote : api.
Variable set_iter : gset Z -> list Z.

(** Without a token, [main] prints the error and does nothing else. *)
Lemma main_missing_token (w : world) :
  MOVIE_API_TOKEN w = None \/ MOVIE_API_TOKEN w = Some "" ->
  main remote set_iter w
  = (Ok tt, logged w [Print (Shown (ValueError "missing movies api token"))]).
Proof.
  intros Htoken. unfold main, bind. now rewrite (read_token_missing w Htoken).
Qed.

Lemma cycle_missing_token (i : Z) (w : world) :
  MOVIE_API_TOKEN w = None \/ MOVIE_API_TOKEN w = Some "" ->
  cycle remote set_iter i w
  = (Ok tt,
     logged w [Print (Running i);
               Print (Shown (ValueError "missing movies api token"));
               Sleep (60 * 5)]).
Proof.
  intros Htoken. unfold cycle. unfold bind at 1. rewrite print_run.
  unfold bind at 1. rewrite main_missing_token by exact Htoken.
  rewrite emit_run, !logged_logged. reflexivity.
Qed.

(** Without a token, any number of cycles ends normally, with no request
    and no file written. *)
Lemma cycles_missing_token (qtds : list Z) (w : world) :
  MOVIE_API_TOKEN w = None \/ MOVIE_API_TOKEN w = Some "" ->
  exists evs,
    cycles remote set_iter qtds w = (Ok tt, logged w evs)
    /\ requests evs = [] /\ dumps evs = [].
Proof.
  revert w. induction qtds as [|i qtds IH]; intros w Htoken.
  - exists []. unfold cycles, ret. now rewrite logged_nil.
  - cbn [cycles]. unfold bind at 1. rewrite cycle_missing_token by exact Htoken.
    destruct (IH (logged w [Print (Running i);
                            Print (Shown (ValueError "missing movies api token"));
                            Sleep (60 * 5)]) Htoken)
      as (evs & -> & Hreq & Hdump).
    eexists. rewrite logged_logged. split; [reflexivity|].
    rewrite requests_app, dumps_app, Hreq, Hdump. now split.
Qed.

End Cycles.

(** C8. When the token is missing (unset or empty) at the start of a
    cycle, [main] ends normally after printing the error, with the files
    untouched and no request sent; the loop of the script then sleeps and
    goes on with the cycles that remain, and the whole script ends normally
    without a request or a written file. *)
Theorem missing_token_skips_cycle
    (remote : api) (set_iter : gset Z -> list Z) (w : world) (i : Z)
    (qtds : list Z) :
  MOVIE_API_TOKEN w = None \/ MOVIE_API_TOKEN w = Some "" ->
  main remote set_iter w
  = (Ok tt, logged w [Print (Shown (ValueError "missing movies api token"))])
  /\ cycles remote set_iter (i :: qtds) w
     = cycles remote set_iter qtds
         (logged w [Print (Running i);
                    Print (Shown (ValueError "missing movies api token"));
                    Sleep (60 * 5)])
  /\ exists evs,
       script remote set_iter w = (Ok tt, logged w evs)
       /\ requests evs = [] /\ dumps evs = [].
Proof.
  intros Htoken. split; [|split].
  - now apply main_missing_token.
  - cbn [cycles]. unfold bind at 1.
    now rewrite cycle_missing_token by exact Htoken.
  - now apply cycles_missing_token.
Qed.

Lemma missing_token_skips_cycle_witness :
  main credits_down_for_8 elements no_token
  = (Ok tt,
     logged no_token [Print (Shown (ValueError "missing movies api token"))])
  /\ cycles credits_down_for_8 elements (0 :: [1; 2]) no_token
     = cycles credits_down_for_8 elements [1; 2]
         (logged no_token
            [Print (Running 0);
             Print (Shown (ValueError "missing movies api token"));
             Sleep (60 * 5)])
  /\ exists evs,
       script credits_down_for_8 elements no_token = (Ok tt, logged no_token evs)
       /\ requests evs = [] /\ dumps evs = [].
Proof.
  apply (missing_token_skips_cycle credits_down_for_8 elements no_token 0 [1; 2]).
  left. reflexivity.
Defined.

(** ** The claim about the set of ids *)

(** C7. The set of ids is a function of the stored [data] alone: reading
    it leaves the world as it was, so reading it again yields the same
    set; building the set again from any enumeration of it yields the same
    set; and from the data [7, 8, 7] it is the set {7, 8}. *)
Theorem dedup_ledger_pure (w : world) (stored : checkpoint) :
  movies_ids_json (files w) = Some stored ->
  dedup_ledger w = (Ok (py_set (data stored)), w)
  /\ bind dedup_ledger (fun _ => dedup_ledger) w = dedup_ledger w
  /\ (forall enumeration,
        enumeration ≡ₚ elements (py_set (data stored)) ->
        py_set enumeration = py_set (data stored))
  /\ py_set [7; 8; 7] = {[7; 8]}
  /\ (forall id, id ∈ py_set [7; 8; 7] <-> id = 7 \/ id = 8).
Proof.
  intros Hstored.
  assert (Hrun : dedup_ledger w = (Ok (py_set (data stored)), w)).
  { unfold dedup_ledger, bind, read_data, lift, ret; simpl. now rewrite Hstored. }
  split; [exact Hrun|]. split; [|split; [|split]].
  - unfold bind. now rewrite Hrun.
  - intros enumeration Hperm. unfold py_set in *.
    apply set_eq. intros x. rewrite !elem_of_list_to_set.
    rewrite Hperm, elem_of_elements, elem_of_list_to_set. reflexivity.
  - now vm_compute.
  - intros id. unfold py_set. rewrite elem_of_list_to_set.
    rewrite !elem_of_cons, elem_of_nil. tauto.
Qed.

Lemma dedup_ledger_pure_witness :
  dedup_ledger backlog_7_8_7 = (Ok (py_set [7; 8; 7]), backlog_7_8_7)
  /\ bind dedup_ledger (fun _ => dedup_ledger) backlog_7_8_7
     = dedup_ledger backlog_7_8_7
  /\ (forall enumeration,
        enumeration ≡ₚ elements (py_set [7; 8; 7]) ->
        py_set enumeration = py_set [7; 8; 7])
  /\ py_set [7; 8; 7] = {[7; 8]}
  /\ (forall id, id ∈ py_set [7; 8; 7] <-> id = 7 \/ id = 8).
Proof.
  apply (dedup_ledger_pure backlog_7_8_7 (Checkpoint 2 1 500 [7; 8; 7])).
  reflexivity.
Defined.

(** ** Further properties: the document store *)



(** ** Further properties: the three requests *)

Lemma entry_ids_all (ids : list Z) : entry_ids (map Some ids) = Ok ids.
Proof. induction ids as [|i ids IH]; simpl; [reflexivity|now rewrite IH]. Qed.

Lemma entry_ids_hole (movies : list (option Z)) :
  In None movies -> exists e, entry_ids movies = Raise e.
Proof.
  induction movies as [|[i|] movies IH]; intros Hin.
  - destruct Hin.
  - destruct Hin as [Hi|Hin]; [discriminate|].
    destruct (IH Hin) as [e He]. exists e. simpl. now rewrite He.
  - now eexists.
Qed.

Lemma listed_failed (r : reply listing) : failed r = true -> listed r = [].
Proof.
  destruct r as [e|status_code [[movies|]|]]; simpl; try reflexivity.
  destruct (Z.eqb status_code 200); simpl; [discriminate|reflexivity].
Qed.

Lemma crew_of_failed (r : reply json) : failed r = true -> crew_of r = JDict [].
Proof.
  intros H. unfold crew_of.
  destruct (checked_failed r (with_body "Error to retreive the credits data") H)
    as [e ->].
  reflexivity.
Qed.

Section Requests.

Variable remote : api.
Variable token : string.

Lemma retreive_movies_id_listed (p : Z) (w : world) :
  exists prints,
    retreive_movies_id remote p token w
    = (Ok (listed (discover_movie remote (out w) p token)),
       logged w (Get (DiscoverMovie p token) :: prints))
    /\ Forall of_stage prints /\ requests prints = [] /\ dumps prints = [].
Proof.
  unfold retreive_movies_id, try_except, bind, get_listing, lift, ret, listed.
  simpl.
  destruct (discover_movie remote (out w) p token)
    as [e|status_code [[movies|]|]]; simpl.
  - exists [Print (PageError p); Print (Shown e)].
    unfold print, emit, logged; simpl. rewrite <- !app_assoc.
    repeat split; repeat constructor.
  - destruct (Z.eqb status_code 200); simpl.
    + destruct (entry_ids movies) as [ids|e]; simpl.
      * exists []. repeat split. constructor.
      * exists [Print (PageError p); Print (Shown e)].
        unfold print, emit, logged; simpl. rewrite <- !app_assoc.
        repeat split; repeat constructor.
    + eexists [Print (PageError p); Print (Shown _)].
      unfold print, emit, logged; simpl. rewrite <- !app_assoc.
      repeat split; repeat constructor.
  - destruct (Z.eqb status_code 200); simpl;
      eexists [Print (PageError p); Print (Shown _)];
      unfold print, emit, logged; simpl; rewrite <- !app_assoc;
      repeat split; repeat constructor.
  - destruct (Z.eqb status_code 200); simpl;
      eexists [Print (PageError p); Print (Shown _)];
      unfold print, emit, logged; simpl; rewrite <- !app_assoc;
      repeat split; repeat constructor.
Qed.

Lemma retreive_movies_detail (id : Z) (w : world) :
  exists prints,
    retreive_movies remote id token w
    = (Ok (detail_of (movie remote (out w) id token)),
       logged w (Get (MovieDetails id token) :: prints))
    /\ Forall of_stage prints /\ requests prints = [] /\ dumps prints = [].
Proof.
  unfold retreive_movies, try_except, bind, get_movie, lift, ret, detail_of.
  simpl.
  destruct (checked (movie remote (out w) id token) _) as [d|e]; simpl.
  - exists []. repeat split. constructor.
  - exists [Print (MovieError id); Print (Shown e)].
    unfold print, emit, logged; simpl. rewrite <- !app_assoc.
    repeat split; repeat constructor.
Qed.

Lemma retreive_movies_crew_run (id : Z) (w : world) :
  exists prints,
    retreive_movies_crew remote id token w
    = (Ok (crew_of (movie_credits remote (out w) id token)),
       logged w (Get (MovieCredits id token) :: prints))
    /\ Forall of_stage prints /\ requests prints = [] /\ dumps prints = [].
Proof.
  unfold retreive_movies_crew, try_except, bind, get_credits, lift, ret, crew_of.
  simpl.
  destruct (checked (movie_credits remote (out w) id token) _) as [d|e]; simpl.
  - exists []. repeat split. constructor.
  - exists [Print (CrewError id); Print (Shown e)].
    unfold print, emit, logged; simpl. rewrite <- !app_assoc.
    repeat split; repeat constructor.
Qed.

End Requests.

(** X2. A listing request never raises and writes no file: it sends one
    request and returns a list.  The list holds the ids of the page, in
    the order of the page, when the answer has status 200 and every entry
    has an id; one entry without an id discards the whole page; and an
    answer that failed gives the empty list. *)
Theorem listing_request_absorbs_failures
    (remote : api) (token : string) (p : Z) (w : world)
    (ids : list Z) (movies : list (option Z)) (status_code : Z)
    (r : reply listing) :
  In None movies ->
  failed r = true ->
  (exists prints,
      retreive_movies_id remote p token w
      = (Ok (listed (discover_movie remote (out w) p token)),
         logged w (Get (DiscoverMovie p token) :: prints))
      /\ requests prints = [] /\ dumps prints = [])
  /\ listed (Responded 200 (Some (Some (map Some ids)))) = ids
  /\ listed (Responded status_code (Some (Some movies))) = []
  /\ listed r = [].
Proof.
  intros Hhole Hfail. split; [|split; [|split]].
  - destruct (retreive_movies_id_listed remote token p w)
      as (prints & Hrun & _ & Hreq & Hdump).
    now exists prints.
  - simpl. now rewrite entry_ids_all.
  - simpl. destruct (entry_ids_hole movies Hhole) as [e ->].
    now destruct (Z.eqb status_code 200).
  - now apply listed_failed.
Qed.

Lemma listing_request_absorbs_failures_witness :
  (exists prints,
      retreive_movies_id online 1 "secret" first_run
      = (Ok (listed (discover_movie online (out first_run) 1 "secret")),
         logged first_run (Get (DiscoverMovie 1 "secret") :: prints))
      /\ requests prints = [] /\ dumps prints = [])
  /\ listed (Responded 200 (Some (Some (map Some [7; 8; 7])))) = [7; 8; 7]
  /\ listed (Responded 200 (Some (Some [Some 7; None; Some 8]))) = []
  /\ listed (Responded 404 (Some None)) = [].
Proof.
  apply (listing_request_absorbs_failures online "secret" 1 first_run
           [7; 8; 7] [Some 7; None; Some 8] 200 (Responded 404 (Some None))).
  - simpl. tauto.
  - reflexivity.
Defined.

(** X3. A details request and a credits request never raise and write no
    file: each sends one request and returns a document, the one received
    when the answer has status 200 and parses, whatever it holds, and the
    empty document for an answer that failed. *)
Theorem detail_requests_absorb_failures
    (remote : api) (token : string) (id : Z) (w : world)
    (d : json) (r : reply json) :
  failed r = true ->
  (exists prints,
      retreive_movies remote id token w
      = (Ok (detail_of (movie remote (out w) id token)),
         logged w (Get (MovieDetails id token) :: prints))
      /\ requests prints = [] /\ dumps prints = [])
  /\ (exists prints,
        retreive_movies_crew remote id token w
        = (Ok (crew_of (movie_credits remote (out w) id token)),
           logged w (Get (MovieCredits id token) :: prints))
        /\ requests prints = [] /\ dumps prints = [])
  /\ detail_of (Responded 200 (Some d)) = d
  /\ crew_of (Responded 200 (Some d)) = d
  /\ detail_of r = JDict []
  /\ crew_of r = JDict [].
Proof.
  intros Hfail. split; [|split; [|split; [|split; [|split]]]].
  - destruct (retreive_movies_detail remote token id w)
      as (prints & Hrun & _ & Hreq & Hdump).
    now exists prints.
  - destruct (retreive_movies_crew_run remote token id w)
      as (prints & Hrun & _ & Hreq & Hdump).
    now exists prints.
  - reflexivity.
  - reflexivity.
  - now apply detail_of_failed.
  - now apply crew_of_failed.
Qed.

Lemma detail_requests_absorb_failures_witness :
  (exists prints,
      retreive_movies details_down_for_8 8 "secret" first_run
      = (Ok (detail_of (movie details_down_for_8 (out first_run) 8 "secret")),
         logged first_run (Get (MovieDetails 8 "secret") :: prints))
      /\ requests prints = [] /\ dumps prints = [])
  /\ (exists prints,
        retreive_movies_crew details_down_for_8 8 "secret" first_run
        = (Ok (crew_of (movie_credits details_down_for_8 (out first_run) 8
                          "secret")),
           logged first_run (Get (MovieCredits 8 "secret") :: prints))
        /\ requests prints = [] /\ dumps prints = [])
  /\ detail_of (Responded 200 (Some (JList []))) = JList []
  /\ crew_of (Responded 200 (Some (JList []))) = JList []
  /\ detail_of (Responded 500 (Some (with_id 8))) = JDict []
  /\ crew_of (Responded 500 (Some (with_id 8))) = JDict [].
Proof.
  apply (detail_requests_absorb_failures details_down_for_8 "secret" 8
           first_run (JList []) (Responded 500 (Some (with_id 8)))).
  reflexivity.
Defined.

(** ** Further properties: Discovery *)

Lemma sleeps_app (evs evs' : list event) :
  sleeps (evs ++ evs') = sleeps evs ++ sleeps evs'.
Proof. unfold sleeps. now rewrite flat_map_app. Qed.

Lemma runnings_app (evs evs' : list event) :
  runnings (evs ++ evs') = runnings evs ++ runnings evs'.
Proof. unfold runnings. now rewrite flat_map_app. Qed.

Lemma range_empty (a b : Z) : b <= a -> range a b = [].
Proof.
  intros Hle. unfold range. replace (Z.to_nat (b - a)) with 0%nat by lia.
  reflexivity.
Qed.

Lemma range_shift (a b : Z) (n m s : nat) :
  b = a + Z.of_nat n ->
  map (fun i : nat => a + Z.of_nat i) (seq (n + s) m)
  = map (fun i : nat => b + Z.of_nat i) (seq s m).
Proof.
  intros ->. revert s. induction m as [|m IH]; intros s; [reflexivity|].
  simpl. f_equal; [lia|].
  rewrite <- (IH (S s)). now rewrite Nat.add_succ_r.
Qed.

Lemma range_app (a b c : Z) : a <= b <= c -> range a b ++ range b c = range a c.
Proof.
  intros Hle. unfold range.
  replace (Z.to_nat (c - a)) with (Z.to_nat (b - a) + Z.to_nat (c - b))%nat by lia.
  rewrite seq_app, map_app. f_equal. simpl. symmetry.
  rewrite <- (Nat.add_0_r (Z.to_nat (b - a))). apply range_shift. lia.
Qed.

Section DiscoveryListed.

Variable remote : api.
Variable token : string.

(** The loop over the pages, with what each page contributed. *)
Lemma pages_loop_listed (pages : list Z) (c : checkpoint) (w : world) :
  exists chunks evs,
    for_ pages
      (fun page' (data_to_save : checkpoint) =>
         let* movie := retreive_movies_id remote page' token in
         print (SavingPage page');;
         ret (Checkpoint (page data_to_save) (pages_per_run data_to_save)
                         (max_pages data_to_save) (data data_to_save ++ movie)))
      c w
    = (Ok (Checkpoint (page c) (pages_per_run c) (max_pages c)
                      (data c ++ concat chunks)),
       logged w evs)
    /\ Forall2 (fun p ids => exists h, ids = listed (discover_movie remote h p token))
               pages chunks
    /\ requests evs = map (fun p => DiscoverMovie p token) pages
    /\ dumps evs = []
    /\ Forall of_stage evs.
Proof.
  revert c w. induction pages as [|p pages IH]; intros c w.
  - exists [], []. simpl. unfold ret. rewrite logged_nil, app_nil_r.
    destruct c. repeat split; constructor.
  - cbn [for_]. unfold bind at 1. unfold bind at 1.
    destruct (retreive_movies_id_listed remote token p w)
      as (prints & -> & Hstage & Hreq & Hdump).
    unfold bind at 1. rewrite print_run. unfold ret at 1.
    rewrite logged_logged.
    set (c' := Checkpoint _ _ _ _).
    destruct (IH c' (logged w ((Get (DiscoverMovie p token) :: prints)
                                 ++ [Print (SavingPage p)])))
      as (chunks & evs & -> & Hchunks & Hreq' & Hdump' & Hstage').
    exists (listed (discover_movie remote (out w) p token) :: chunks),
      (Get (DiscoverMovie p token) :: prints ++ Print (SavingPage p) :: evs).
    split; [|split; [|split; [|split]]].
    + rewrite logged_logged. subst c'; simpl. rewrite <- !app_assoc. reflexivity.
    + constructor; [now exists (out w)|assumption].
    + rewrite requests_cons, requests_app, (requests_cons (Print _)).
      rewrite Hreq, Hreq'. reflexivity.
    + rewrite dumps_cons, dumps_app, (dumps_cons (Print _)).
      rewrite Hdump, Hdump'. reflexivity.
    + constructor; [exact I|]. apply Forall_app. split; [assumption|].
      constructor; [exact I|assumption].
Qed.

(** A run below the ceiling, with what each page contributed. *)
Lemma save_movies_ids_listed (w : world) :
  let c := loaded_checkpoint w in
  page c < max_pages c ->
  exists chunks evs,
    save_movies_ids remote token w
    = (Ok tt,
       World (MOVIE_API_TOKEN w)
             (Folder
                (Some (Checkpoint (page c + pages_per_run c) (pages_per_run c)
                                  (max_pages c) (data c ++ concat chunks)))
                (credits_json (files w)) (movies_json (files w)))
             (out w ++ evs ++ [Dump "movies_ids.json"]))
    /\ Forall2 (fun p ids => exists h, ids = listed (discover_movie remote h p token))
               (range (page c) (page c + pages_per_run c)) chunks
    /\ requests evs
       = map (fun p => DiscoverMovie p token)
             (range (page c) (page c + pages_per_run c))
    /\ dumps evs = []
    /\ Forall of_stage evs.
Proof.
  intros c Hlt.
  assert (Hload : read_data MOVIES_IDS_FILE_NAME default_checkpoint w
                  = (Ok (match movies_ids_json (files w) with
                         | Some a => inl a | None => inr default_checkpoint
                         end), w)).
  { unfold read_data; simpl. now destruct (movies_ids_json (files w)). }
  unfold save_movies_ids. unfold bind at 1. rewrite Hload.
  assert (Hc : merged (match movies_ids_json (files w) with
                       | Some a => inl a | None => inr default_checkpoint
                       end) = c).
  { unfold c, loaded_checkpoint. now destruct (movies_ids_json (files w)). }
  rewrite Hc.
  replace (Z.geb (page c) (max_pages c)) with false by (symmetry; lia).
  unfold bind at 1.
  destruct (pages_loop_listed (range (page c) (page c + pages_per_run c)) c w)
    as (chunks & evs & -> & Hchunks & Hreq & Hdump & Hstage).
  exists chunks, evs. split; [|now repeat split].
  unfold save_data, logged; simpl. now rewrite <- app_assoc.
Qed.

End DiscoveryListed.

Lemma Forall2_all_nil {A B} (R : A -> list B -> Prop) (l : list A)
    (chunks : list (list B)) :
  Forall2 R l chunks -> (forall a ids, In a l -> R a ids -> ids = []) ->
  concat chunks = [].
Proof.
  induction 1 as [|a ids l chunks Hab _ IH]; intros Hnil; [reflexivity|].
  simpl. rewrite (Hnil a ids (or_introl eq_refl) Hab). simpl.
  apply IH. intros a' ids' Hin. apply Hnil. now right.
Qed.

(** X4. A run of Discovery below the ceiling appends to [data] what each
    page of the range listed, page after page, writes [movies_ids.json]
    once, at the end, and leaves the two other files as they were. *)
Theorem discovery_appends_listed
    (remote : api) (token : string) (w : world) (c : checkpoint) :
  loaded_checkpoint w = c ->
  page c < max_pages c ->
  exists chunks evs w',
    save_movies_ids remote token w = (Ok tt, w')
    /\ Forall2 (fun p ids => exists h, ids = listed (discover_movie remote h p token))
               (range (page c) (page c + pages_per_run c)) chunks
    /\ movies_ids_json (files w')
       = Some (Checkpoint (page c + pages_per_run c) (pages_per_run c)
                          (max_pages c) (data c ++ concat chunks))
    /\ credits_json (files w') = credits_json (files w)
    /\ movies_json (files w') = movies_json (files w)
    /\ out w' = out w ++ evs
    /\ dumps evs = ["movies_ids.json"].
Proof.
  intros <- Hlt.
  destruct (save_movies_ids_listed remote token w Hlt)
    as (chunks & evs & Hrun & Hchunks & _ & Hdump & _).
  eexists chunks, (evs ++ [Dump "movies_ids.json"]), _.
  split; [exact Hrun|]. simpl. repeat split; try assumption.
  now rewrite dumps_app, Hdump.
Qed.

Lemma discovery_appends_listed_witness :
  exists chunks evs w',
    save_movies_ids online "secret" first_run = (Ok tt, w')
    /\ Forall2 (fun p ids => exists h, ids = listed (discover_movie online h p "secret"))
               (range 1 (1 + 10)) chunks
    /\ movies_ids_json (files w')
       = Some (Checkpoint (1 + 10) 10 500 ([] ++ concat chunks))
    /\ credits_json (files w') = credits_json (files first_run)
    /\ movies_json (files w') = movies_json (files first_run)
    /\ out w' = out first_run ++ evs
    /\ dumps evs = ["movies_ids.json"].
Proof.
  apply (discovery_appends_listed online "secret" first_run default_checkpoint).
  - reflexivity.
  - simpl. lia.
Defined.

(** X5. When every listing request of a run fails, Discovery still ends
    normally and moves the page forward by [pages_per_run] with [data]
    unchanged: the pages of the range are passed over, and the next run
    starts after them. *)
Theorem discovery_offline_advances
    (remote : api) (token : string) (w : world) (c : checkpoint) :
  loaded_checkpoint w = c ->
  page c < max_pages c ->
  (forall h p, failed (discover_movie remote h p token) = true) ->
  exists w',
    save_movies_ids remote token w = (Ok tt, w')
    /\ loaded_checkpoint w'
       = Checkpoint (page c + pages_per_run c) (pages_per_run c) (max_pages c)
                    (data c).
Proof.
  intros <- Hlt Hfail.
  destruct (save_movies_ids_listed remote token w Hlt)
    as (chunks & evs & Hrun & Hchunks & _).
  eexists. split; [exact Hrun|].
  unfold loaded_checkpoint at 1; simpl.
  rewrite (Forall2_all_nil _ _ _ Hchunks), app_nil_r; [reflexivity|].
  intros p ids _ [h ->]. apply listed_failed, Hfail.
Qed.

Lemma discovery_offline_advances_witness :
  exists w',
    save_movies_ids offline "secret" below_ceiling = (Ok tt, w')
    /\ loaded_checkpoint w' = Checkpoint (499 + 10) 10 500 [7].
Proof.
  apply (discovery_offline_advances offline "secret" below_ceiling
           (Checkpoint 499 10 500 [7])).
  - reflexivity.
  - simpl. lia.
  - intros h p. reflexivity.
Defined.

(** X6. With a [pages_per_run] of zero or less, a run of Discovery below
    the ceiling sends no request and keeps [data]; it still writes the
    checkpoint, its page moved by [pages_per_run]: not at all for zero,
    backwards for a negative value. *)
Theorem discovery_without_pages
    (remote : api) (token : string) (w : world) (c : checkpoint) :
  loaded_checkpoint w = c ->
  page c < max_pages c ->
  pages_per_run c <= 0 ->
  save_movies_ids remote token w
  = (Ok tt,
     World (MOVIE_API_TOKEN w)
           (Folder
              (Some (Checkpoint (page c + pages_per_run c) (pages_per_run c)
                                (max_pages c) (data c)))
              (credits_json (files w)) (movies_json (files w)))
           (out w ++ [Dump "movies_ids.json"])).
Proof.
  intros <- Hlt Hnone. unfold loaded_checkpoint in *.
  unfold save_movies_ids. unfold bind at 1. unfold read_data; simpl.
  destruct (movies_ids_json (files w)) as [c|]; simpl in *; [|lia].
  replace (Z.geb (page c) (max_pages c)) with false by (symmetry; lia).
  rewrite range_empty by lia. reflexivity.
Qed.

Lemma discovery_without_pages_witness :
  save_movies_ids online "secret" no_pages
  = (Ok tt,
     World (MOVIE_API_TOKEN no_pages)
           (Folder (Some (Checkpoint (3 + 0) 0 500 [7]))
                   (credits_json (files no_pages)) (movies_json (files no_pages)))
           (out no_pages ++ [Dump "movies_ids.json"])).
Proof.
  apply (discovery_without_pages online "secret" no_pages (Checkpoint 3 0 500 [7])).
  - reflexivity.
  - simpl. lia.
  - simpl. lia.
Defined.

(** X7. A run of Discovery that moves the page to the ceiling or beyond is
    the last one: the next run, whatever the API and the token, raises
    [ValueError] and leaves everything as that run wrote it. *)
Theorem discovery_last_run
    (remote remote' : api) (token token' : string) (w : world)
    (c : checkpoint) :
  loaded_checkpoint w = c ->
  page c < max_pages c ->
  page c + pages_per_run c >= max_pages c ->
  exists w',
    save_movies_ids remote token w = (Ok tt, w')
    /\ save_movies_ids remote' token' w'
       = (Raise (ValueError "max pages to read exceeded"), w').
Proof.
  intros <- Hlt Hlast.
  destruct (save_movies_ids_listed remote token w Hlt)
    as (chunks & evs & Hrun & _).
  eexists. split; [exact Hrun|].
  apply save_movies_ids_rejected.
  cbn [loaded_checkpoint files movies_ids_json page max_pages]. lia.
Qed.

Lemma discovery_last_run_witness :
  exists w',
    save_movies_ids online "secret" below_ceiling = (Ok tt, w')
    /\ save_movies_ids offline "other" w'
       = (Raise (ValueError "max pages to read exceeded"), w').
Proof.
  apply (discovery_last_run online offline "secret" "other" below_ceiling
           (Checkpoint 499 10 500 [7])).
  - reflexivity.
  - simpl. lia.
  - simpl. lia.
Defined.

(** X8. Two runs of Discovery in a row, the second still below the
    ceiling, move the page by twice [pages_per_run], request the two
    adjacent ranges of pages in order, and append to [data] what the first
    run found, then what the second found. *)
Theorem discovery_twice
    (remote : api) (token : string) (w : world) (c : checkpoint) :
  loaded_checkpoint w = c ->
  page c + pages_per_run c < max_pages c ->
  0 <= pages_per_run c ->
  exists first second evs w'',
    bind (save_movies_ids remote token) (fun _ => save_movies_ids remote token) w
    = (Ok tt, w'')
    /\ loaded_checkpoint w''
       = Checkpoint (page c + 2 * pages_per_run c) (pages_per_run c)
                    (max_pages c) (data c ++ first ++ second)
    /\ out w'' = out w ++ evs
    /\ requests evs
       = map (fun p => DiscoverMovie p token)
             (range (page c) (page c + 2 * pages_per_run c))
    /\ dumps evs = ["movies_ids.json"; "movies_ids.json"].
Proof.
  intros <- Hlt Hpos.
  destruct (save_movies_ids_listed remote token w ltac:(lia))
    as (chunks & evs & Hrun & _ & Hreq & Hdump & _).
  unfold bind. rewrite Hrun.
  set (w' := World _ _ _).
  assert (Hc' : loaded_checkpoint w'
                = Checkpoint (page (loaded_checkpoint w)
                              + pages_per_run (loaded_checkpoint w))
                             (pages_per_run (loaded_checkpoint w))
                             (max_pages (loaded_checkpoint w))
                             (data (loaded_checkpoint w) ++ concat chunks))
    by reflexivity.
  destruct (save_movies_ids_listed remote token w')
    as (chunks' & evs' & Hrun' & _ & Hreq' & Hdump' & _).
  { rewrite Hc'. simpl. lia. }
  rewrite Hc' in Hrun', Hreq'. simpl in Hrun', Hreq'.
  eexists (concat chunks), (concat chunks'),
    (evs ++ [Dump "movies_ids.json"] ++ evs' ++ [Dump "movies_ids.json"]), _.
  split; [exact Hrun'|]. unfold loaded_checkpoint at 1. simpl.
  split; [|split; [|split]].
  - f_equal; [lia|now rewrite <- app_assoc].
  - now rewrite <- !app_assoc.
  - rewrite requests_app, requests_cons, requests_app, Hreq, Hreq'.
    change (requests [Dump "movies_ids.json"]) with (@nil request).
    rewrite app_nil_r. cbn [app]. rewrite <- map_app. f_equal.
    replace (page (loaded_checkpoint w) + 2 * pages_per_run (loaded_checkpoint w))
      with (page (loaded_checkpoint w) + pages_per_run (loaded_checkpoint w)
            + pages_per_run (loaded_checkpoint w)) by lia.
    apply range_app. lia.
  - rewrite dumps_app, dumps_cons, dumps_app, Hdump, Hdump'. reflexivity.
Qed.

Lemma discovery_twice_witness :
  exists first second evs w'',
    bind (save_movies_ids online "secret")
         (fun _ => save_movies_ids online "secret") first_run
    = (Ok tt, w'')
    /\ loaded_checkpoint w''
       = Checkpoint (1 + 2 * 10) 10 500 ([] ++ first ++ second)
    /\ out w'' = out first_run ++ evs
    /\ requests evs
       = map (fun p => DiscoverMovie p "secret") (range 1 (1 + 2 * 10))
    /\ dumps evs = ["movies_ids.json"; "movies_ids.json"].
Proof.
  apply (discovery_twice online "secret" first_run default_checkpoint).
  - reflexivity.
  - simpl. lia.
  - simpl. lia.
Defined.

(** ** Further properties: the detail stages *)

Lemma getitem_error (d : json) (key : string) (e : exc) :
  getitem d key = Raise e -> e = KeyError key \/ e = TypeError.
Proof.
  destruct d; simpl; try (intros [= <-]; now right).
  destruct (lookup_key key kvs); [discriminate|]. intros [= <-]. now left.
Qed.

Lemma ids_of_error (docs : list json) (e : exc) :
  ids_of docs = Raise e -> e = KeyError "id" \/ e = TypeError.
Proof.
  induction docs as [|d docs IH]; simpl; [discriminate|].
  destruct (getitem d "id") as [v|e'] eqn:Hd.
  - destruct (ids_of docs) as [vs|e'']; [discriminate|].
    intros [= <-]. now apply IH.
  - intros [= <-]. now apply (getitem_error d).
Qed.

Lemma ids_of_readable_iff (docs : list json) :
  (exists saved, ids_of docs = Ok saved) <-> Forall readable docs.
Proof.
  induction docs as [|d docs IH]; simpl.
  - split; [constructor|now exists []].
  - split.
    + intros [saved Hsaved].
      destruct (getitem d "id") as [v|e] eqn:Hd; [|discriminate].
      destruct (ids_of docs) as [vs|e] eqn:Hvs; [|discriminate].
      constructor; [now exists v|]. apply IH. now exists vs.
    + intros Hall. inversion Hall as [|d' docs' [v Hv] Hrest]; subst.
      apply IH in Hrest as [vs Hvs]. rewrite Hv, Hvs. now eexists.
Qed.

Lemma ids_of_app (docs docs' saved saved' : list json) :
  ids_of docs = Ok saved -> ids_of docs' = Ok saved' ->
  ids_of (docs ++ docs') = Ok (saved ++ saved').
Proof.
  revert saved. induction docs as [|d docs IH]; intros saved; simpl.
  - now intros [= <-].
  - destruct (getitem d "id") as [v|e]; [|discriminate].
    destruct (ids_of docs) as [vs|e]; [|discriminate].
    intros [= <-] Hsaved'. now rewrite (IH vs eq_refl Hsaved').
Qed.

Lemma py_in_app (i : Z) (saved saved' : list json) :
  py_in i (saved ++ saved') = py_in i saved || py_in i saved'.
Proof. unfold py_in. apply existsb_app. Qed.

Lemma missing_NoDup (saved : list json) (ids : list Z) :
  List.NoDup ids -> List.NoDup (missing saved ids).
Proof. apply List.NoDup_filter. Qed.

Section Stages.

Variable remote : api.
Variable token : string.

(** The loop of [save_movies] when no candidate is missing. *)
Lemma movies_loop_nothing_missing (saved : list json) (ids : list Z)
    (movies : list json) (w : world) :
  missing saved ids = [] ->
  for_ ids
    (fun movie_id (movies : list json) =>
       if negb (py_in movie_id saved)
       then
         let* movie := retreive_movies remote movie_id token in
         print (RetreivingMovie movie_id);;
         ret (movies ++ [movie])
       else ret movies)
    movies w
  = (Ok movies, w).
Proof.
  induction ids as [|i ids IH]; intros Hnone; [reflexivity|].
  cbn [for_]. rewrite missing_cons in Hnone. unfold bind at 1.
  destruct (negb (py_in i saved)); [discriminate|].
  unfold ret at 1. now apply IH.
Qed.

(** The loop of [save_movies], with the kind of events it adds. *)
Lemma movies_loop_stage (saved : list json) (ids : list Z) (movies : list json)
    (w : world) :
  exists docs evs,
    for_ ids
      (fun movie_id (movies : list json) =>
         if negb (py_in movie_id saved)
         then
           let* movie := retreive_movies remote movie_id token in
           print (RetreivingMovie movie_id);;
           ret (movies ++ [movie])
         else ret movies)
      movies w
    = (Ok (movies ++ docs), logged w evs)
    /\ requests evs = map (fun i => MovieDetails i token) (missing saved ids)
    /\ dumps evs = []
    /\ Forall of_stage evs
    /\ Forall2 (fun i d => exists h, d = detail_of (movie remote h i token))
               (missing saved ids) docs.
Proof.
  revert movies w. induction ids as [|i ids IH]; intros movies w.
  - exists [], []. simpl. unfold ret. rewrite logged_nil, app_nil_r.
    repeat split; constructor.
  - cbn [for_]. unfold bind at 1. rewrite missing_cons.
    destruct (negb (py_in i saved)) eqn:Hi.
    + unfold bind at 1.
      destruct (retreive_movies_detail remote token i w)
        as (prints & -> & Hstage & Hreq & Hdump).
      unfold bind at 1. rewrite print_run. unfold ret at 1.
      rewrite logged_logged.
      destruct (IH (movies ++ [detail_of (movie remote (out w) i token)])
                   (logged w ((Get (MovieDetails i token) :: prints)
                                ++ [Print (RetreivingMovie i)])))
        as (docs & evs & -> & Hreq' & Hdump' & Hstage' & Hdocs).
      exists (detail_of (movie remote (out w) i token) :: docs),
        (Get (MovieDetails i token) :: prints
           ++ Print (RetreivingMovie i) :: evs).
      split; [|split; [|split; [|split]]].
      * rewrite logged_logged. simpl. rewrite <- !app_assoc. reflexivity.
      * rewrite requests_cons, requests_app, (requests_cons (Print _)).
        rewrite Hreq, Hreq'. reflexivity.
      * rewrite dumps_cons, dumps_app, (dumps_cons (Print _)).
        rewrite Hdump, Hdump'. reflexivity.
      * constructor; [exact I|]. apply Forall_app. split; [assumption|].
        constructor; [exact I|assumption].
      * constructor; [now exists (out w)|assumption].
    + unfold ret at 1.
      destruct (IH movies w) as (docs & evs & -> & Hreq' & Hdump' & Hstage' & Hdocs).
      exists docs, evs. now repeat split.
Qed.

Lemma save_movies_from (ids : list Z) (w : world) :
  save_movies remote ids token w
  = bind (lift (ids_of (loaded_docs MOVIES_FILE_NAME w)))
         (fun movies_ids_already_saved =>
            let* movies :=
              for_ ids
                (fun movie_id (movies : list json) =>
                   if negb (py_in movie_id movies_ids_already_saved)
                   then
                     let* movie := retreive_movies remote movie_id token in
                     print (RetreivingMovie movie_id);;
                     ret (movies ++ [movie])
                   else ret movies)
                (loaded_docs MOVIES_FILE_NAME w) in
            save_data MOVIES_FILE_NAME movies) w.
Proof.
  unfold save_movies. unfold bind at 1. unfold read_data, loaded_docs. simpl.
  now destruct (movies_json (files w)).
Qed.

Lemma save_credits_data_from (ids : list Z) (w : world) :
  save_credits_data remote ids token w
  = bind (lift (ids_of (loaded_docs CREDITS_FILE_NAME w)))
         (fun credits_already_saved =>
            let* credits :=
              for_ ids
                (fun movie_id (credits : list json) =>
                   if negb (py_in movie_id credits_already_saved)
                   then
                     let* credit := retreive_movies_crew remote movie_id token in
                     let* id := lift (getitem credit "id") in
                     print (ReadingCredit id);;
                     ret (credits ++ [credit])
                   else ret credits)
                (loaded_docs CREDITS_FILE_NAME w) in
            save_data CREDITS_FILE_NAME credits) w.
Proof.
  unfold save_credits_data. unfold bind at 1. unfold read_data, loaded_docs. simpl.
  now destruct (credits_json (files w)).
Qed.

(** The movies stage on a readable store, in full. *)
Lemma save_movies_stage (ids : list Z) (saved : list json) (w : world) :
  ids_of (loaded_docs MOVIES_FILE_NAME w) = Ok saved ->
  exists docs evs,
    save_movies remote ids token w
    = (Ok tt,
       World (MOVIE_API_TOKEN w)
             (Folder (movies_ids_json (files w)) (credits_json (files w))
                     (Some (loaded_docs MOVIES_FILE_NAME w ++ docs)))
             (out w ++ evs ++ [Dump "movies.json"]))
    /\ requests evs = map (fun i => MovieDetails i token) (missing saved ids)
    /\ dumps evs = []
    /\ Forall of_stage evs
    /\ Forall2 (fun i d => exists h, d = detail_of (movie remote h i token))
               (missing saved ids) docs.
Proof.
  intros Hsaved. rewrite save_movies_from. unfold bind at 1. unfold lift at 1.
  rewrite Hsaved. unfold bind at 1.
  destruct (movies_loop_stage saved ids (loaded_docs MOVIES_FILE_NAME w) w)
    as (docs & evs & -> & Hreq & Hdump & Hstage & Hdocs).
  exists docs, evs. split; [|now repeat split].
  unfold save_data, logged; simpl. now rewrite <- app_assoc.
Qed.

(** The loop of [save_credits_data]: it goes through the missing ids in
    order until the document received for one has no readable id. *)
Lemma credits_loop_run (saved : list json) (ids : list Z) (credits : list json)
    (w : world) :
  exists fetched rest evs r,
    for_ ids
      (fun movie_id (credits : list json) =>
         if negb (py_in movie_id saved)
         then
           let* credit := retreive_movies_crew remote movie_id token in
           let* id := lift (getitem credit "id") in
           print (ReadingCredit id);;
           ret (credits ++ [credit])
         else ret credits)
      credits w
    = (r, logged w evs)
    /\ missing saved ids = fetched ++ rest
    /\ requests evs = map (fun i => MovieCredits i token) fetched
    /\ dumps evs = []
    /\ Forall of_stage evs
    /\ ((exists docs,
            r = Ok (credits ++ docs) /\ rest = []
            /\ Forall2 (fun i d =>
                          (exists h, d = crew_of (movie_credits remote h i token))
                          /\ readable d)
                       fetched docs)
        \/ (exists e i h,
              r = Raise e /\ (e = KeyError "id" \/ e = TypeError)
              /\ In i fetched
              /\ getitem (crew_of (movie_credits remote h i token)) "id"
                 = Raise e)).
Proof.
  revert credits w. induction ids as [|i ids IH]; intros credits w.
  - exists [], [], [], (Ok credits). simpl. unfold ret.
    rewrite logged_nil.
    split; [reflexivity|]. split; [reflexivity|]. split; [reflexivity|].
    split; [reflexivity|]. split; [constructor|].
    left. exists []. rewrite app_nil_r. repeat split. constructor.
  - cbn [for_]. unfold bind at 1. rewrite missing_cons.
    destruct (negb (py_in i saved)) eqn:Hi.
    + unfold bind at 1.
      destruct (retreive_movies_crew_run remote token i w)
        as (prints & -> & Hstage & Hreq & Hdump).
      unfold bind at 1. unfold lift at 1.
      destruct (getitem (crew_of (movie_credits remote (out w) i token)) "id")
        as [v|e] eqn:Hget.
      * unfold bind at 1. rewrite print_run. unfold ret at 1.
        rewrite logged_logged.
        destruct (IH (credits ++ [crew_of (movie_credits remote (out w) i token)])
                     (logged w ((Get (MovieCredits i token) :: prints)
                                  ++ [Print (ReadingCredit v)])))
          as (fetched & rest & evs & r & -> & Hmiss & Hreq' & Hdump' & Hstage'
              & Hcase).
        exists (i :: fetched), rest,
          (Get (MovieCredits i token) :: prints
             ++ Print (ReadingCredit v) :: evs), r.
        split; [|split; [|split; [|split; [|split]]]].
        -- rewrite logged_logged. simpl. rewrite <- !app_assoc. reflexivity.
        -- now rewrite Hmiss.
        -- rewrite requests_cons, requests_app, (requests_cons (Print _)).
           rewrite Hreq, Hreq'. reflexivity.
        -- rewrite dumps_cons, dumps_app, (dumps_cons (Print _)).
           rewrite Hdump, Hdump'. reflexivity.
        -- constructor; [exact I|]. apply Forall_app. split; [assumption|].
           constructor; [exact I|assumption].
        -- destruct Hcase as [(docs & -> & -> & Hdocs)
                             |(e & j & h & -> & He & Hj & Hraise)].
           ++ left.
              exists (crew_of (movie_credits remote (out w) i token) :: docs).
              rewrite <- app_assoc. repeat split.
              constructor; [|assumption].
              split; [now exists (out w)|now exists v].
           ++ right. exists e, j, h. repeat split; try assumption. now right.
      * exists [i], (missing saved ids),
          (Get (MovieCredits i token) :: prints), (Raise e).
        split; [reflexivity|]. split; [reflexivity|]. split.
        { rewrite requests_cons, Hreq. reflexivity. }
        split. { rewrite dumps_cons, Hdump. reflexivity. }
        split. { constructor; [exact I|assumption]. }
        right. exists e, i, (out w). repeat split; try assumption.
        -- now apply (getitem_error _ _ _ Hget).
        -- now left.
    + unfold ret at 1.
      destruct (IH credits w)
        as (fetched & rest & evs & r & -> & Hmiss & Hreq' & Hdump' & Hstage'
            & Hcase).
      exists fetched, rest, evs, r. now repeat split.
Qed.

End Stages.

Section StageCases.

Variable remote : api.
Variable token : string.

(** The credits stage on a readable store: it completes, or it raises at
    the first document received without a readable id. *)
Lemma save_credits_data_cases (ids : list Z) (saved : list json) (w : world) :
  ids_of (loaded_docs CREDITS_FILE_NAME w) = Ok saved ->
  exists fetched rest evs,
    missing saved ids = fetched ++ rest
    /\ requests evs = map (fun i => MovieCredits i token) fetched
    /\ dumps evs = []
    /\ Forall of_stage evs
    /\ ((exists docs,
            save_credits_data remote ids token w
            = (Ok tt,
               World (MOVIE_API_TOKEN w)
                     (Folder (movies_ids_json (files w))
                             (Some (loaded_docs CREDITS_FILE_NAME w ++ docs))
                             (movies_json (files w)))
                     (out w ++ evs ++ [Dump "credits.json"]))
            /\ rest = []
            /\ Forall2 (fun i d =>
                          (exists h, d = crew_of (movie_credits remote h i token))
                          /\ readable d)
                       fetched docs)
        \/ (exists e i h,
              save_credits_data remote ids token w = (Raise e, logged w evs)
              /\ (e = KeyError "id" \/ e = TypeError)
              /\ In i fetched
              /\ getitem (crew_of (movie_credits remote h i token)) "id"
                 = Raise e)).
Proof.
  intros Hsaved.
  assert (Hrun : save_credits_data remote ids token w
                 = bind
                     (for_ ids
                        (fun movie_id (credits : list json) =>
                           if negb (py_in movie_id saved)
                           then
                             let* credit :=
                               retreive_movies_crew remote movie_id token in
                             let* id := lift (getitem credit "id") in
                             print (ReadingCredit id);;
                             ret (credits ++ [credit])
                           else ret credits)
                        (loaded_docs CREDITS_FILE_NAME w))
                     (fun credits => save_data CREDITS_FILE_NAME credits) w).
  { rewrite save_credits_data_from. unfold bind at 1. unfold lift at 1.
    now rewrite Hsaved. }
  destruct (credits_loop_run remote token saved ids
              (loaded_docs CREDITS_FILE_NAME w) w)
    as (fetched & rest & evs & r & Hloop & Hmiss & Hreq & Hdump & Hstage & Hcase).
  assert (Hrun' : save_credits_data remote ids token w
                  = match r with
                    | Ok credits =>
                        save_data CREDITS_FILE_NAME credits (logged w evs)
                    | Raise e => (Raise e, logged w evs)
                    end).
  { rewrite Hrun. unfold bind at 1. rewrite Hloop. now destruct r. }
  rewrite Hrun'. clear Hrun Hrun' Hloop.
  exists fetched, rest, evs. repeat (split; [assumption|]).
  destruct Hcase as [(docs & -> & -> & Hdocs)|(e & i & h & -> & He & Hi & Hget)].
  - left. exists docs. split; [|split; [reflexivity|exact Hdocs]].
    unfold save_data, logged; simpl. now rewrite <- app_assoc.
  - right. exists e, i, h. split; [reflexivity|]. split; [exact He|].
    split; [exact Hi|exact Hget].
Qed.

Lemma save_credits_data_unreadable (ids : list Z) (e : exc) (w : world) :
  ids_of (loaded_docs CREDITS_FILE_NAME w) = Raise e ->
  save_credits_data remote ids token w = (Raise e, w).
Proof.
  intros Hsaved. rewrite save_credits_data_from. unfold bind at 1.
  unfold lift at 1. now rewrite Hsaved.
Qed.

End StageCases.

(** X9. A stored document whose [id] cannot be read, such as the empty
    document left by a failed request, stops a detail stage where it
    starts: the movies stage and the credits stage raise [KeyError] or
    [TypeError] while they collect the stored ids, before any request and
    whatever the candidates, and the world stays as it was. *)
Theorem stage_blocked_by_unreadable_store
    (remote : api) (token : string) (ids : list Z) (docs : list json)
    (m : json) (e0 : exc) (env : option string) (ids_file : option checkpoint)
    (other : option (list json)) (history : list event) :
  In m docs ->
  getitem m "id" = Raise e0 ->
  exists e,
    (e = KeyError "id" \/ e = TypeError)
    /\ save_movies remote ids token
         (World env (Folder ids_file other (Some docs)) history)
       = (Raise e, World env (Folder ids_file other (Some docs)) history)
    /\ save_credits_data remote ids token
         (World env (Folder ids_file (Some docs) other) history)
       = (Raise e, World env (Folder ids_file (Some docs) other) history).
Proof.
  intros Hin Hget.
  destruct (ids_of_unreadable docs m e0 Hin Hget) as [e He].
  exists e. split; [now apply (ids_of_error docs)|]. split.
  - now apply save_movies_unreadable.
  - now apply save_credits_data_unreadable.
Qed.

Lemma stage_blocked_by_unreadable_store_witness :
  exists e,
    (e = KeyError "id" \/ e = TypeError)
    /\ save_movies online [7; 8] "secret"
         (World (Some "secret") (Folder None None (Some [with_id 7; JDict []])) [])
       = (Raise e,
          World (Some "secret") (Folder None None (Some [with_id 7; JDict []])) [])
    /\ save_credits_data online [7; 8] "secret"
         (World (Some "secret") (Folder None (Some [with_id 7; JDict []]) None) [])
       = (Raise e,
          World (Some "secret") (Folder None (Some [with_id 7; JDict []]) None) []).
Proof.
  apply (stage_blocked_by_unreadable_store online "secret" [7; 8]
           [with_id 7; JDict []] (JDict []) (KeyError "id")
           (Some "secret") None None []).
  - simpl. tauto.
  - reflexivity.
Defined.

(** X10. On a store whose documents all have a readable [id], the movies
    stage ends normally whatever the API answers: it keeps the stored
    documents in place, adds one document for each request it sent, writes
    [movies.json] once, after the last request, and leaves the two other
    files as they were. *)
Theorem movies_stage_completes
    (remote : api) (token : string) (ids : list Z) (w : world) :
  Forall readable (loaded_docs MOVIES_FILE_NAME w) ->
  exists docs evs,
    save_movies remote ids token w
    = (Ok tt,
       World (MOVIE_API_TOKEN w)
             (Folder (movies_ids_json (files w)) (credits_json (files w))
                     (Some (loaded_docs MOVIES_FILE_NAME w ++ docs)))
             (out w ++ evs ++ [Dump "movies.json"]))
    /\ length docs = length (requests evs)
    /\ dumps evs = [].
Proof.
  intros Hall. apply ids_of_readable_iff in Hall as [saved Hsaved].
  destruct (save_movies_stage remote token ids saved w Hsaved)
    as (docs & evs & Hrun & Hreq & Hdump & _ & Hdocs).
  exists docs, evs. split; [exact Hrun|]. split; [|exact Hdump].
  rewrite Hreq, length_map. symmetry. eapply Forall2_length. exact Hdocs.
Qed.

Lemma movies_stage_completes_witness :
  exists docs evs,
    save_movies details_down_for_8 [7; 8; 9] "secret" movie_7_stored
    = (Ok tt,
       World (MOVIE_API_TOKEN movie_7_stored)
             (Folder (movies_ids_json (files movie_7_stored))
                     (credits_json (files movie_7_stored))
                     (Some (loaded_docs MOVIES_FILE_NAME movie_7_stored ++ docs)))
             (out movie_7_stored ++ evs ++ [Dump "movies.json"]))
    /\ length docs = length (requests evs)
    /\ dumps evs = [].
Proof.
  apply (movies_stage_completes details_down_for_8 "secret" [7; 8; 9]
           movie_7_stored).
  repeat constructor; now exists (JInt 7).
Defined.

Lemma ids_of_received {R : Z -> json -> Prop} (l : list Z) (docs : list json) :
  Forall2 R l docs ->
  (forall i d, In i l -> R i d -> getitem d "id" = Ok (JInt i)) ->
  ids_of docs = Ok (map JInt l).
Proof.
  induction 1 as [|i d l docs HR _ IH]; intros Hid; [reflexivity|].
  simpl. rewrite (Hid i d (or_introl eq_refl) HR).
  rewrite IH; [reflexivity|]. intros j d' Hj. apply Hid. now right.
Qed.

Lemma py_in_received (i : Z) (l : list Z) : In i l -> py_in i (map JInt l) = true.
Proof.
  intros Hin. unfold py_in. apply existsb_exists. exists (JInt i). split.
  - now apply in_map.
  - simpl. apply Z.eqb_refl.
Qed.

Lemma missing_none (saved : list json) (ids : list Z) :
  (forall i, In i ids -> py_in i saved = true) -> missing saved ids = [].
Proof.
  induction ids as [|i ids IH]; intros Hall; [reflexivity|].
  rewrite missing_cons, (Hall i (or_introl eq_refl)). simpl.
  apply IH. intros j Hj. apply Hall. now right.
Qed.

Lemma missing_In (saved : list json) (ids : list Z) (i : Z) :
  In i (missing saved ids) -> In i ids /\ py_in i saved = false.
Proof.
  intros Hin. apply filter_In in Hin as [Hin Hneg]. split; [assumption|].
  now destruct (py_in i saved).
Qed.

(** X11. When every document received for a candidate carries the id that
    was asked for, the movies stage is idempotent: after one run on a
    readable store, a second run over the same candidates sends no request
    and writes the store back with the documents it already held, whatever
    the API would answer. *)
Theorem movies_stage_idempotent
    (remote remote' : api) (token token' : string) (ids : list Z)
    (w : world) :
  Forall readable (loaded_docs MOVIES_FILE_NAME w) ->
  (forall h i, In i ids ->
               getitem (detail_of (movie remote h i token)) "id" = Ok (JInt i)) ->
  exists w1,
    save_movies remote ids token w = (Ok tt, w1)
    /\ save_movies remote' ids token' w1
       = (Ok tt,
          World (MOVIE_API_TOKEN w1) (files w1) (out w1 ++ [Dump "movies.json"])).
Proof.
  intros Hall Hid. apply ids_of_readable_iff in Hall as [saved Hsaved].
  destruct (save_movies_stage remote token ids saved w Hsaved)
    as (docs & evs & Hrun & _ & _ & _ & Hdocs).
  eexists. split; [exact Hrun|].
  set (w1 := World _ _ _).
  assert (Hloaded : loaded_docs MOVIES_FILE_NAME w1
                    = loaded_docs MOVIES_FILE_NAME w ++ docs) by reflexivity.
  assert (Hsaved1 : ids_of (loaded_docs MOVIES_FILE_NAME w1)
                    = Ok (saved ++ map JInt (missing saved ids))).
  { rewrite Hloaded. apply ids_of_app; [assumption|].
    apply (ids_of_received _ _ Hdocs).
    intros i d Hi [h ->]. apply Hid. now apply (missing_In saved). }
  rewrite save_movies_from. unfold bind at 1. unfold lift at 1.
  rewrite Hsaved1. unfold bind at 1.
  rewrite movies_loop_nothing_missing.
  - unfold save_data. rewrite Hloaded. reflexivity.
  - apply missing_none. intros i Hi. rewrite py_in_app.
    destruct (py_in i saved) eqn:Hsaw; [reflexivity|]. simpl.
    apply py_in_received. now apply in_missing.
Qed.

Lemma movies_stage_idempotent_witness :
  exists w1,
    save_movies online [7; 8; 9] "secret" movie_7_stored = (Ok tt, w1)
    /\ save_movies offline [7; 8; 9] "other" w1
       = (Ok tt,
          World (MOVIE_API_TOKEN w1) (files w1) (out w1 ++ [Dump "movies.json"])).
Proof.
  apply (movies_stage_idempotent online offline "secret" "other" [7; 8; 9]
           movie_7_stored).
  - repeat constructor; now exists (JInt 7).
  - intros h i _. reflexivity.
Defined.

Lemma NoDup_map_injective {A B} (f : A -> B) (l : list A) :
  (forall x y, f x = f y -> x = y) -> List.NoDup l -> List.NoDup (map f l).
Proof.
  intros Hinj. induction 1 as [|x l Hx _ IH]; simpl; constructor; [|assumption].
  intros Hin. apply in_map_iff in Hin as (y & Hy & Hin).
  apply Hinj in Hy as ->. now apply Hx.
Qed.

Lemma set_iter_NoDup (set_iter : gset Z -> list Z) (s : gset Z) :
  (forall s, set_iter s ≡ₚ elements s) -> List.NoDup (set_iter s).
Proof.
  intros Hiter. apply NoDup_ListNoDup. rewrite (Hiter s). apply NoDup_elements.
Qed.

Lemma set_iter_In (set_iter : gset Z -> list Z) (s : gset Z) (i : Z) :
  (forall s, set_iter s ≡ₚ elements s) -> In i (set_iter s) -> i ∈ s.
Proof.
  intros Hiter Hin. apply elem_of_elements. rewrite <- (Hiter s).
  now apply list_elem_of_In.
Qed.

(** X12. Over the ids of a set, in whatever order the set is enumerated,
    each detail stage asks for an id at most once, and only for ids of the
    set. *)
Theorem stage_requests_once
    (remote : api) (set_iter : gset Z -> list Z) (token : string)
    (s : gset Z) (w : world) :
  (forall s, set_iter s ≡ₚ elements s) ->
  (exists r w' evs,
      save_movies remote (set_iter s) token w = (r, w')
      /\ out w' = out w ++ evs
      /\ List.NoDup (requests evs)
      /\ forall q, In q (requests evs) ->
                   exists i, q = MovieDetails i token /\ i ∈ s)
  /\ (exists r w' evs,
        save_credits_data remote (set_iter s) token w = (r, w')
        /\ out w' = out w ++ evs
        /\ List.NoDup (requests evs)
        /\ forall q, In q (requests evs) ->
                     exists i, q = MovieCredits i token /\ i ∈ s).
Proof.
  intros Hiter. split.
  - destruct (ids_of (loaded_docs MOVIES_FILE_NAME w)) as [saved|e] eqn:Hsaved.
    + destruct (save_movies_stage remote token (set_iter s) saved w Hsaved)
        as (docs & evs & Hrun & Hreq & _).
      eexists _, _, (evs ++ [Dump "movies.json"]). split; [exact Hrun|].
      split; [reflexivity|]. rewrite requests_app, Hreq. simpl.
      rewrite app_nil_r. split.
      * apply NoDup_map_injective; [now intros x y [= ->]|].
        apply missing_NoDup. now apply set_iter_NoDup.
      * intros q Hq. apply in_map_iff in Hq as (i & <- & Hi).
        exists i. split; [reflexivity|].
        apply (set_iter_In set_iter s i Hiter). now apply (missing_In saved).
    + exists (Raise e), w, []. split; [now apply save_movies_unreadable|].
      rewrite app_nil_r. split; [reflexivity|]. split; [constructor|].
      intros q [].
  - destruct (ids_of (loaded_docs CREDITS_FILE_NAME w)) as [saved|e] eqn:Hsaved.
    + destruct (save_credits_data_cases remote token (set_iter s) saved w Hsaved)
        as (fetched & rest & evs & Hmiss & Hreq & _ & _ & Hcase).
      assert (Hnodup : List.NoDup fetched).
      { apply (NoDup_app_remove_r fetched rest). rewrite <- Hmiss.
        apply missing_NoDup. now apply set_iter_NoDup. }
      assert (Hfrom : forall i, In i fetched -> i ∈ s).
      { intros i Hi. apply (set_iter_In set_iter s i Hiter).
        apply (missing_In saved). rewrite Hmiss. apply in_or_app. now left. }
      destruct Hcase as [(docs & Hrun & _)|(e & i & h & Hrun & _)].
      * eexists _, _, (evs ++ [Dump "credits.json"]). split; [exact Hrun|].
        split; [reflexivity|]. rewrite requests_app, Hreq. simpl.
        rewrite app_nil_r. split.
        -- apply NoDup_map_injective; [now intros x y [= ->]|assumption].
        -- intros q Hq. apply in_map_iff in Hq as (j & <- & Hj).
           exists j. split; [reflexivity|now apply Hfrom].
      * eexists _, _, evs. split; [exact Hrun|].
        split; [reflexivity|]. rewrite Hreq. split.
        -- apply NoDup_map_injective; [now intros x y [= ->]|assumption].
        -- intros q Hq. apply in_map_iff in Hq as (j & <- & Hj).
           exists j. split; [reflexivity|now apply Hfrom].
    + exists (Raise e), w, []. split; [now apply save_credits_data_unreadable|].
      rewrite app_nil_r. split; [reflexivity|]. split; [constructor|].
      intros q [].
Qed.

Lemma stage_requests_once_witness :
  (exists r w' evs,
      save_movies online (elements ({[7; 8]} : gset Z)) "secret" movie_7_stored
      = (r, w')
      /\ out w' = out movie_7_stored ++ evs
      /\ List.NoDup (requests evs)
      /\ forall q, In q (requests evs) ->
                   exists i, q = MovieDetails i "secret" /\ i ∈ ({[7; 8]} : gset Z))
  /\ (exists r w' evs,
        save_credits_data online (elements ({[7; 8]} : gset Z)) "secret"
          movie_7_stored
        = (r, w')
        /\ out w' = out movie_7_stored ++ evs
        /\ List.NoDup (requests evs)
        /\ forall q, In q (requests evs) ->
                     exists i, q = MovieCredits i "secret" /\ i ∈ ({[7; 8]} : gset Z)).
Proof.
  apply (stage_requests_once online elements "secret" {[7; 8]} movie_7_stored).
  intros s. reflexivity.
Defined.

(** X13. When the credits store is readable and every document received
    for a candidate has an [id], the credits stage ends normally: it sends
    one request for each candidate not stored yet, in the order of the
    candidates, adds the documents received after the stored ones, writes
    [credits.json] once, and leaves the two other files as they were. *)
Theorem credits_stage_completes
    (remote : api) (token : string) (ids : list Z) (saved : list json)
    (w : world) :
  ids_of (loaded_docs CREDITS_FILE_NAME w) = Ok saved ->
  (forall h i, In i ids -> readable (crew_of (movie_credits remote h i token))) ->
  exists docs evs,
    save_credits_data remote ids token w
    = (Ok tt,
       World (MOVIE_API_TOKEN w)
             (Folder (movies_ids_json (files w))
                     (Some (loaded_docs CREDITS_FILE_NAME w ++ docs))
                     (movies_json (files w)))
             (out w ++ evs ++ [Dump "credits.json"]))
    /\ requests evs = map (fun i => MovieCredits i token) (missing saved ids)
    /\ dumps evs = []
    /\ Forall2 (fun i d => exists h, d = crew_of (movie_credits remote h i token))
               (missing saved ids) docs.
Proof.
  intros Hsaved Hid.
  destruct (save_credits_data_cases remote token ids saved w Hsaved)
    as (fetched & rest & evs & Hmiss & Hreq & Hdump & _ & Hcase).
  destruct Hcase as [(docs & Hrun & -> & Hdocs)|(e & i & h & _ & _ & Hi & Hget)].
  - rewrite app_nil_r in Hmiss. rewrite Hmiss.
    exists docs, evs. split; [exact Hrun|]. split; [exact Hreq|].
    split; [exact Hdump|].
    clear - Hdocs. induction Hdocs as [|i d l docs [Hd _] _ IH]; now constructor.
  - exfalso. destruct (Hid h i) as [v Hv]; [|congruence].
    apply (missing_In saved). rewrite Hmiss. apply in_or_app. now left.
Qed.

Lemma credits_stage_completes_witness :
  exists docs evs,
    save_credits_data online [7; 8] "secret" first_run
    = (Ok tt,
       World (MOVIE_API_TOKEN first_run)
             (Folder (movies_ids_json (files first_run))
                     (Some (loaded_docs CREDITS_FILE_NAME first_run ++ docs))
                     (movies_json (files first_run)))
             (out first_run ++ evs ++ [Dump "credits.json"]))
    /\ requests evs = map (fun i => MovieCredits i "secret") (missing [] [7; 8])
    /\ dumps evs = []
    /\ Forall2 (fun i d => exists h, d = crew_of (movie_credits online h i "secret"))
               (missing [] [7; 8]) docs.
Proof.
  apply (credits_stage_completes online "secret" [7; 8] [] first_run).
  - reflexivity.
  - intros h i _. now exists (JInt i).
Defined.

(** X14. The credits stage writes all or nothing.  Either it ends normally,
    having written [credits.json] once with the stored documents followed
    by one document for each request; or it raises [KeyError] or
    [TypeError] and [credits.json] is as it was, whatever was received
    before.  The two other files are as they were in both cases. *)
Theorem credits_stage_all_or_nothing
    (remote : api) (token : string) (ids : list Z) (w : world) :
  exists r w' evs,
    save_credits_data remote ids token w = (r, w')
    /\ out w' = out w ++ evs
    /\ movies_ids_json (files w') = movies_ids_json (files w)
    /\ movies_json (files w') = movies_json (files w)
    /\ ((r = Ok tt
         /\ dumps evs = ["credits.json"]
         /\ exists docs,
              credits_json (files w')
              = Some (loaded_docs CREDITS_FILE_NAME w ++ docs)
              /\ length docs = length (requests evs))
        \/ (exists e,
              r = Raise e
              /\ (e = KeyError "id" \/ e = TypeError)
              /\ credits_json (files w') = credits_json (files w)
              /\ dumps evs = [])).
Proof.
  destruct (ids_of (loaded_docs CREDITS_FILE_NAME w)) as [saved|e] eqn:Hsaved.
  - destruct (save_credits_data_cases remote token ids saved w Hsaved)
      as (fetched & rest & evs & Hmiss & Hreq & Hdump & _ & Hcase).
    destruct Hcase as [(docs & Hrun & -> & Hdocs)|(e & i & h & Hrun & He & _)].
    + eexists _, _, (evs ++ [Dump "credits.json"]). split; [exact Hrun|].
      simpl. repeat (split; [reflexivity|]). left.
      split; [reflexivity|]. split; [now rewrite dumps_app, Hdump|].
      exists docs. split; [reflexivity|].
      rewrite requests_app, Hreq. simpl. rewrite app_nil_r, length_map.
      symmetry. eapply Forall2_length. exact Hdocs.
    + eexists _, _, evs. split; [exact Hrun|].
      simpl. repeat (split; [reflexivity|]). right. now exists e.
  - exists (Raise e), w, []. split; [now apply save_credits_data_unreadable|].
    rewrite app_nil_r. repeat (split; [reflexivity|]). right. exists e.
    split; [reflexivity|]. split; [now apply (ids_of_error _ _ Hsaved)|].
    now split.
Qed.

(** ** Further properties: a cycle and the script *)

Lemma read_token_present (w : world) (token : string) :
  MOVIE_API_TOKEN w = Some token -> token <> "" -> read_token w = (Ok token, w).
Proof.
  intros Htoken Hne. unfold read_token. rewrite Htoken.
  destruct (String.eqb_spec token ""); [contradiction|reflexivity].
Qed.

Lemma read_token_cases (w : world) :
  (exists token, read_token w = (Ok token, w))
  \/ read_token w = (Raise (ValueError "missing movies api token"), w).
Proof.
  unfold read_token. destruct (MOVIE_API_TOKEN w) as [token|]; [|now right].
  destruct (String.eqb token ""); [now right|left; now exists token].
Qed.

Lemma dedup_ledger_stored (w : world) (stored : checkpoint) :
  movies_ids_json (files w) = Some stored ->
  dedup_ledger w = (Ok (py_set (data stored)), w).
Proof.
  intros Hstored. unfold dedup_ledger, bind, read_data, lift, ret; simpl.
  now rewrite Hstored.
Qed.

Section Summaries.

Variable remote : api.
Variable token : string.

(** Discovery either writes a checkpoint or raises [ValueError]. *)
Lemma save_movies_ids_cases (w : world) :
  (exists stored evs,
      save_movies_ids remote token w
      = (Ok tt,
         World (MOVIE_API_TOKEN w)
               (Folder (Some stored) (credits_json (files w))
                       (movies_json (files w)))
               (out w ++ evs))
      /\ Forall of_stage evs)
  \/ save_movies_ids remote token w
     = (Raise (ValueError "max pages to read exceeded"), w).
Proof.
  destruct (Z.lt_ge_cases (page (loaded_checkpoint w))
                          (max_pages (loaded_checkpoint w))) as [Hlt|Hge].
  - left.
    destruct (save_movies_ids_listed remote token w Hlt)
      as (chunks & evs & Hrun & _ & _ & _ & Hstage).
    eexists _, (evs ++ [Dump "movies_ids.json"]). split; [exact Hrun|].
    apply Forall_app. split; [assumption|]. now repeat constructor.
  - right. apply save_movies_ids_rejected. lia.
Qed.

(** A detail stage either ends normally or raises on a document whose id
    cannot be read; it leaves the checkpoint file alone. *)
Lemma save_credits_data_summary (ids : list Z) (w : world) :
  exists r credits evs,
    save_credits_data remote ids token w
    = (r,
       World (MOVIE_API_TOKEN w)
             (Folder (movies_ids_json (files w)) credits (movies_json (files w)))
             (out w ++ evs))
    /\ Forall of_stage evs
    /\ (r = Ok tt \/ r = Raise (KeyError "id") \/ r = Raise TypeError).
Proof.
  destruct (ids_of (loaded_docs CREDITS_FILE_NAME w)) as [saved|e] eqn:Hsaved.
  - destruct (save_credits_data_cases remote token ids saved w Hsaved)
      as (fetched & rest & evs & _ & _ & _ & Hstage & Hcase).
    destruct Hcase as [(docs & Hrun & _)|(e & i & h & Hrun & He & _)].
    + eexists (Ok tt), _, (evs ++ [Dump "credits.json"]).
      split; [exact Hrun|]. split; [|now left].
      apply Forall_app. split; [assumption|]. now repeat constructor.
    + exists (Raise e), (credits_json (files w)), evs.
      split; [rewrite Hrun; now destruct w as [t [a b c] o]|].
      split; [assumption|]. right. destruct He as [-> | ->]; tauto.
  - exists (Raise e), (credits_json (files w)), [].
    rewrite (save_credits_data_unreadable remote token ids e w Hsaved).
    split; [rewrite app_nil_r; now destruct w as [t [a b c] o]|].
    split; [constructor|]. right.
    destruct (ids_of_error _ _ Hsaved) as [-> | ->]; tauto.
Qed.

Lemma save_movies_summary (ids : list Z) (w : world) :
  exists r movies evs,
    save_movies remote ids token w
    = (r,
       World (MOVIE_API_TOKEN w)
             (Folder (movies_ids_json (files w)) (credits_json (files w)) movies)
             (out w ++ evs))
    /\ Forall of_stage evs
    /\ (r = Ok tt \/ r = Raise (KeyError "id") \/ r = Raise TypeError).
Proof.
  destruct (ids_of (loaded_docs MOVIES_FILE_NAME w)) as [saved|e] eqn:Hsaved.
  - destruct (save_movies_stage remote token ids saved w Hsaved)
      as (docs & evs & Hrun & _ & _ & Hstage & _).
    eexists (Ok tt), _, (evs ++ [Dump "movies.json"]).
    split; [exact Hrun|]. split; [|now left].
    apply Forall_app. split; [assumption|]. now repeat constructor.
  - exists (Raise e), (movies_json (files w)), [].
    rewrite (save_movies_unreadable remote token ids e w Hsaved).
    split; [rewrite app_nil_r; now destruct w as [t [a b c] o]|].
    split; [constructor|]. right.
    destruct (ids_of_error _ _ Hsaved) as [-> | ->]; tauto.
Qed.

End Summaries.

Section MainCases.

Variable remote : api.
Variable set_iter : gset Z -> list Z.

(** What [main] can do: it keeps the token, adds events of the stages, and
    ends normally or with the exception of a detail stage. *)
Lemma main_cases (w : world) :
  exists r fs evs,
    main remote set_iter w = (r, World (MOVIE_API_TOKEN w) fs (out w ++ evs))
    /\ Forall of_stage evs
    /\ (r = Ok tt \/ r = Raise (KeyError "id") \/ r = Raise TypeError).
Proof.
  unfold main. unfold bind at 1.
  destruct (read_token_cases w) as [[token ->]| ->].
  2:{ exists (Ok tt), (files w), [Print (Shown (ValueError "missing movies api token"))].
      split; [reflexivity|]. split; [now repeat constructor|now left]. }
  unfold bind at 1.
  destruct (save_movies_ids_cases remote token w)
    as [(stored & evs1 & -> & Hstage1)| ->].
  2:{ exists (Ok tt), (files w),
        [Print (Shown (ValueError "max pages to read exceeded"))].
      split; [reflexivity|]. split; [now repeat constructor|now left]. }
  set (w1 := World _ _ _).
  unfold bind at 1. rewrite (dedup_ledger_stored w1 stored eq_refl).
  unfold bind at 1.
  destruct (save_credits_data_summary remote token
              (set_iter (py_set (data stored))) w1)
    as (r2 & credits & evs2 & -> & Hstage2 & Hr2).
  set (w2 := World _ _ _).
  destruct Hr2 as [-> | [-> | ->]].
  - destruct (save_movies_summary remote token
                (set_iter (py_set (data stored))) w2)
      as (r3 & movies & evs3 & -> & Hstage3 & Hr3).
    exists r3, (Folder (Some stored) credits movies), (evs1 ++ evs2 ++ evs3).
    split.
    + subst w2 w1; simpl. rewrite <- !app_assoc.
      destruct Hr3 as [-> | [-> | ->]]; reflexivity.
    + split; [|assumption]. now rewrite !Forall_app.
  - exists (Raise (KeyError "id")), (files w2), (evs1 ++ evs2). split.
    + subst w2 w1; simpl. now rewrite <- !app_assoc.
    + split; [now rewrite Forall_app|tauto].
  - exists (Raise TypeError), (files w2), (evs1 ++ evs2). split.
    + subst w2 w1; simpl. now rewrite <- !app_assoc.
    + split; [now rewrite Forall_app|tauto].
Qed.

End MainCases.

(** X15. With a token, a checkpoint at or above [max_pages] ends the cycle
    at Discovery: [main] prints the error and returns normally, and
    neither detail stage runs, so the ids still in [data] without a
    document are not asked for. *)
Theorem main_at_ceiling
    (remote : api) (set_iter : gset Z -> list Z) (w : world) (token : string)
    (c : checkpoint) :
  MOVIE_API_TOKEN w = Some token ->
  token <> "" ->
  loaded_checkpoint w = c ->
  page c >= max_pages c ->
  main remote set_iter w
  = (Ok tt, logged w [Print (Shown (ValueError "max pages to read exceeded"))]).
Proof.
  intros Htoken Hne <- Hge. unfold main. unfold bind at 1.
  rewrite (read_token_present w token Htoken Hne). unfold bind at 1.
  now rewrite (save_movies_ids_rejected remote token w Hge).
Qed.

Lemma main_at_ceiling_witness :
  main online elements at_ceiling
  = (Ok tt,
     logged at_ceiling [Print (Shown (ValueError "max pages to read exceeded"))]).
Proof.
  apply (main_at_ceiling online elements at_ceiling "secret"
           (Checkpoint 500 10 500 [7; 8])).
  - reflexivity.
  - discriminate.
  - reflexivity.
  - simpl. lia.
Defined.

(** X16. Whatever the token, the files and the API, [main] keeps the token
    and returns normally or raises [KeyError] for the key [id] or
    [TypeError], the two exceptions of reading the id of a document: no
    [ValueError] leaves [main], and no exception of a request does. *)
Theorem main_raises_only_on_document_id
    (remote : api) (set_iter : gset Z -> list Z) (w : world) :
  exists r w' evs,
    main remote set_iter w = (r, w')
    /\ MOVIE_API_TOKEN w' = MOVIE_API_TOKEN w
    /\ out w' = out w ++ evs
    /\ (r = Ok tt \/ r = Raise (KeyError "id") \/ r = Raise TypeError).
Proof.
  destruct (main_cases remote set_iter w) as (r & fs & evs & Hrun & _ & Hr).
  eexists r, _, evs. split; [exact Hrun|]. now repeat split.
Qed.

(** X17. A cycle in which nothing fails.  With a token, a checkpoint below
    [max_pages], two readable stores and credits that all carry an [id],
    [main] ends normally after Discovery, the credits stage and the movies
    stage, in that order: it requests the pages of the range, then the
    credits, then the details, the candidates of both stages being the ids
    of the whole [data] just written, those of earlier runs included, and
    it writes each of the three files once. *)
Theorem main_runs_stages_in_order
    (remote : api) (set_iter : gset Z -> list Z) (w : world) (token : string)
    (c : checkpoint) (saved_credits saved_movies : list json) :
  MOVIE_API_TOKEN w = Some token ->
  token <> "" ->
  loaded_checkpoint w = c ->
  page c < max_pages c ->
  ids_of (loaded_docs CREDITS_FILE_NAME w) = Ok saved_credits ->
  ids_of (loaded_docs MOVIES_FILE_NAME w) = Ok saved_movies ->
  (forall h i, readable (crew_of (movie_credits remote h i token))) ->
  exists extra evs w',
    main remote set_iter w = (Ok tt, w')
    /\ out w' = out w ++ evs
    /\ loaded_checkpoint w'
       = Checkpoint (page c + pages_per_run c) (pages_per_run c) (max_pages c)
                    (data c ++ extra)
    /\ requests evs
       = map (fun p => DiscoverMovie p token)
             (range (page c) (page c + pages_per_run c))
         ++ map (fun i => MovieCredits i token)
                (missing saved_credits (set_iter (py_set (data c ++ extra))))
         ++ map (fun i => MovieDetails i token)
                (missing saved_movies (set_iter (py_set (data c ++ extra))))
    /\ dumps evs = ["movies_ids.json"; "credits.json"; "movies.json"].
Proof.
  intros Htoken Hne <- Hlt Hcredits Hmovies Hid.
  unfold main. unfold bind at 1.
  rewrite (read_token_present w token Htoken Hne). unfold bind at 1.
  destruct (save_movies_ids_listed remote token w Hlt)
    as (chunks & evs1 & -> & _ & Hreq1 & Hdump1 & _).
  set (stored := Checkpoint _ _ _ _).
  set (w1 := World _ _ _).
  unfold bind at 1. rewrite (dedup_ledger_stored w1 stored eq_refl).
  unfold bind at 1.
  destruct (credits_stage_completes remote token
              (set_iter (py_set (data stored))) saved_credits w1 Hcredits)
    as (docs2 & evs2 & -> & Hreq2 & Hdump2 & _).
  { intros h i _. apply Hid. }
  set (w2 := World _ _ _).
  destruct (save_movies_stage remote token
              (set_iter (py_set (data stored))) saved_movies w2 Hmovies)
    as (docs3 & evs3 & -> & Hreq3 & Hdump3 & _).
  eexists (concat chunks),
    ((evs1 ++ [Dump "movies_ids.json"]) ++ (evs2 ++ [Dump "credits.json"])
       ++ (evs3 ++ [Dump "movies.json"])), _.
  split; [reflexivity|]. simpl. split; [|split; [|split]].
  - now rewrite <- !app_assoc.
  - reflexivity.
  - rewrite !requests_app, Hreq1, Hreq2, Hreq3. simpl.
    now rewrite !app_nil_r.
  - rewrite !dumps_app, Hdump1, Hdump2, Hdump3. reflexivity.
Qed.

Lemma main_runs_stages_in_order_witness :
  exists extra evs w',
    main online elements first_run = (Ok tt, w')
    /\ out w' = out first_run ++ evs
    /\ loaded_checkpoint w' = Checkpoint (1 + 10) 10 500 ([] ++ extra)
    /\ requests evs
       = map (fun p => DiscoverMovie p "secret") (range 1 (1 + 10))
         ++ map (fun i => MovieCredits i "secret")
                (missing [] (elements (py_set ([] ++ extra))))
         ++ map (fun i => MovieDetails i "secret")
                (missing [] (elements (py_set ([] ++ extra))))
    /\ dumps evs = ["movies_ids.json"; "credits.json"; "movies.json"].
Proof.
  apply (main_runs_stages_in_order online elements first_run "secret"
           default_checkpoint [] []).
  - reflexivity.
  - discriminate.
  - reflexivity.
  - simpl. lia.
  - reflexivity.
  - reflexivity.
  - intros h i. now exists (JInt i).
Defined.

Lemma of_stage_quiet (evs : list event) :
  Forall of_stage evs -> runnings evs = [] /\ sleeps evs = [].
Proof.
  induction 1 as [|e evs He _ [IHr IHs]]; [now split|].
  destruct e as [r|[]|name|seconds]; simpl in *; try contradiction;
    now split.
Qed.

Section CycleCases.

Variable remote : api.
Variable set_iter : gset Z -> list Z.

(** One turn of the loop: the announcement, [main], and the pause when
    [main] returned. *)
Lemma cycle_cases (i : Z) (w : world) :
  exists r w' evs,
    cycle remote set_iter i w = (r, w')
    /\ MOVIE_API_TOKEN w' = MOVIE_API_TOKEN w
    /\ out w' = out w ++ evs
    /\ runnings evs = [i]
    /\ ((r = Ok tt /\ sleeps evs = [60 * 5])
        \/ ((r = Raise (KeyError "id") \/ r = Raise TypeError)
            /\ sleeps evs = [])).
Proof.
  unfold cycle. unfold bind at 1. rewrite print_run. unfold bind at 1.
  destruct (main_cases remote set_iter (logged w [Print (Running i)]))
    as (r & fs & evs & -> & Hstage & Hr).
  apply of_stage_quiet in Hstage as [Hrun Hsleep].
  destruct Hr as [-> | Hr].
  - eexists (Ok tt), _, (Print (Running i) :: evs ++ [Sleep (60 * 5)]).
    split; [reflexivity|]. simpl. split; [reflexivity|]. split.
    + now rewrite <- !app_assoc.
    + split.
      * change (runnings (Print (Running i) :: evs ++ [Sleep 300]))
          with (i :: runnings (evs ++ [Sleep 300])).
        now rewrite runnings_app, Hrun.
      * left. split; [reflexivity|].
        change (sleeps (Print (Running i) :: evs ++ [Sleep 300]))
          with (sleeps (evs ++ [Sleep 300])).
        now rewrite sleeps_app, Hsleep.
  - eexists r, _, (Print (Running i) :: evs).
    split; [destruct Hr as [-> | ->]; reflexivity|].
    simpl. split; [reflexivity|]. split; [now rewrite <- !app_assoc|].
    split.
    + change (runnings (Print (Running i) :: evs)) with (i :: runnings evs).
      now rewrite Hrun.
    + right. split; [assumption|].
      change (sleeps (Print (Running i) :: evs)) with (sleeps evs).
      assumption.
Qed.

(** The loop: every turn until one raises. *)
Lemma cycles_cases (qtds : list Z) (w : world) :
  exists r w' evs,
    cycles remote set_iter qtds w = (r, w')
    /\ MOVIE_API_TOKEN w' = MOVIE_API_TOKEN w
    /\ out w' = out w ++ evs
    /\ ((r = Ok tt
         /\ runnings evs = qtds
         /\ sleeps evs = map (fun _ => 60 * 5) qtds)
        \/ (exists done i rest,
              (r = Raise (KeyError "id") \/ r = Raise TypeError)
              /\ qtds = done ++ i :: rest
              /\ runnings evs = done ++ [i]
              /\ sleeps evs = map (fun _ => 60 * 5) done)).
Proof.
  revert w. induction qtds as [|i qtds IH]; intros w.
  - exists (Ok tt), w, []. unfold cycles, ret. rewrite app_nil_r.
    split; [reflexivity|]. split; [reflexivity|]. split; [reflexivity|].
    left. now repeat split.
  - cbn [cycles]. unfold bind at 1.
    destruct (cycle_cases i w) as (r & w1 & evs1 & -> & Htok1 & Hout1 & Hrun1 & Hr).
    destruct Hr as [[-> Hsleep1]|[Hr Hsleep1]].
    + destruct (IH w1) as (r' & w2 & evs2 & -> & Htok2 & Hout2 & Hcase).
      exists r', w2, (evs1 ++ evs2). split; [reflexivity|].
      split; [congruence|]. split; [rewrite Hout2, Hout1; now rewrite app_assoc|].
      rewrite runnings_app, sleeps_app, Hrun1, Hsleep1.
      destruct Hcase as [(-> & Hrun2 & Hsleep2)
                        |(done & j & rest & Hr' & -> & Hrun2 & Hsleep2)].
      * left. rewrite Hrun2, Hsleep2. now repeat split.
      * right. exists (i :: done), j, rest. rewrite Hrun2, Hsleep2.
        now repeat split.
    + exists r, w1, evs1.
      split; [destruct Hr as [-> | ->]; reflexivity|].
      split; [assumption|]. split; [assumption|].
      right. exists [], i, qtds. now repeat split.
Qed.

End CycleCases.

(** X18. The script runs its cycles in order until one raises.  If it ends
    normally, it announced the ten cycles 0 to 9 and paused 300 seconds
    after each of them, the last one included.  Otherwise it ends with
    [KeyError] or [TypeError] in a cycle it had announced, having paused
    once for each cycle before that one and not after it; the cycles that
    remain are not run. *)
Theorem script_cycles
    (remote : api) (set_iter : gset Z -> list Z) (w : world) :
  exists r w' evs,
    script remote set_iter w = (r, w')
    /\ out w' = out w ++ evs
    /\ ((r = Ok tt
         /\ runnings evs = [0; 1; 2; 3; 4; 5; 6; 7; 8; 9]
         /\ sleeps evs = repeat 300 10)
        \/ (exists done i rest,
              (r = Raise (KeyError "id") \/ r = Raise TypeError)
              /\ [0; 1; 2; 3; 4; 5; 6; 7; 8; 9] = done ++ i :: rest
              /\ runnings evs = done ++ [i]
              /\ sleeps evs = repeat 300 (length done))).
Proof.
  unfold script.
  destruct (cycles_cases remote set_iter (range 0 10) w)
    as (r & w' & evs & Hrun & _ & Hout & Hcase).
  exists r, w', evs. split; [exact Hrun|]. split; [exact Hout|].
  destruct Hcase as [(-> & Hrunning & Hsleep)
                    |(done & i & rest & Hr & Hsplit & Hrunning & Hsleep)].
  - left. split; [reflexivity|]. split; [exact Hrunning|exact Hsleep].
  - right. exists done, i, rest. split; [exact Hr|]. split; [exact Hsplit|].
    split; [exact Hrunning|]. rewrite Hsleep. clear.
    induction done as [|d done IH]; [reflexivity|]. simpl. now rewrite IH.
Qed.

(** X19. In [main] the set of ids is read right after Discovery wrote the
    checkpoint, so it is the set of the ids just written, the ids of
    earlier runs and those found in this one, and the default that [main]
    passes to [read_data] is not used.  On its own that default cannot be
    indexed: with no checkpoint file, reading the set raises
    [TypeError]. *)
Theorem ledger_after_discovery
    (remote : api) (token : string) (w w0 : world) (c : checkpoint) :
  loaded_checkpoint w = c ->
  page c < max_pages c ->
  movies_ids_json (files w0) = None ->
  (exists extra w',
      bind (save_movies_ids remote token) (fun _ => dedup_ledger) w
      = (Ok (py_set (data c ++ extra)), w')
      /\ loaded_checkpoint w'
         = Checkpoint (page c + pages_per_run c) (pages_per_run c)
                      (max_pages c) (data c ++ extra)
      /\ forall i, i ∈ py_set (data c ++ extra) <-> In i (data c) \/ In i extra)
  /\ dedup_ledger w0 = (Raise TypeError, w0).
Proof.
  intros <- Hlt Hnone. split.
  - destruct (save_movies_ids_listed remote token w Hlt)
      as (chunks & evs & Hrun & _).
    unfold bind. rewrite Hrun.
    set (w1 := World _ _ _).
    exists (concat chunks), w1. split; [|split].
    + exact (dedup_ledger_stored w1 _ eq_refl).
    + reflexivity.
    + intros i. unfold py_set. rewrite elem_of_list_to_set.
      rewrite list_elem_of_In. apply in_app_iff.
  - unfold dedup_ledger, bind, read_data, lift; simpl. now rewrite Hnone.
Qed.

Lemma ledger_after_discovery_witness :
  (exists extra w',
      bind (save_movies_ids online "secret") (fun _ => dedup_ledger) first_run
      = (Ok (py_set ([] ++ extra)), w')
      /\ loaded_checkpoint w' = Checkpoint (1 + 10) 10 500 ([] ++ extra)
      /\ forall i, i ∈ py_set ([] ++ extra) <-> In i [] \/ In i extra)
  /\ dedup_ledger first_run = (Raise TypeError, first_run).
Proof.
  apply (ledger_after_discovery online "secret" first_run first_run
           default_checkpoint).
  - reflexivity.
  - simpl. lia.
  - reflexivity.
Defined.

Lemma missing_repeat (saved : list json) (i : Z) (n : nat) :
  py_in i saved = false -> missing saved (repeat i n) = repeat i n.
Proof.
  intros Hnot. induction n as [|n IH]; [reflexivity|].
  cbn [repeat]. rewrite missing_cons, Hnot, IH. reflexivity.
Qed.

(** X20. The movies stage does not remove repetitions among its candidates
    itself: the stored ids are collected once, before the loop, so an id
    that is not stored and is given [n] times is requested [n] times and
    gets [n] documents.  It is the [set] built in [main] that makes each id
    come once. *)
Theorem movies_stage_repeats_without_set
    (remote : api) (token : string) (i : Z) (n : nat) (saved : list json)
    (w : world) :
  ids_of (loaded_docs MOVIES_FILE_NAME w) = Ok saved ->
  py_in i saved = false ->
  exists docs evs w',
    save_movies remote (repeat i n) token w = (Ok tt, w')
    /\ out w' = out w ++ evs
    /\ requests evs = repeat (MovieDetails i token) n
    /\ movies_json (files w') = Some (loaded_docs MOVIES_FILE_NAME w ++ docs)
    /\ length docs = n.
Proof.
  intros Hsaved Hnot.
  destruct (save_movies_stage remote token (repeat i n) saved w Hsaved)
    as (docs & evs & Hrun & Hreq & _ & _ & Hdocs).
  rewrite (missing_repeat saved i n Hnot) in Hreq, Hdocs.
  eexists docs, (evs ++ [Dump "movies.json"]), _.
  split; [exact Hrun|]. simpl. split; [reflexivity|]. split; [|split].
  - rewrite requests_app, Hreq. simpl. rewrite app_nil_r.
    clear. induction n as [|n IH]; [reflexivity|]. simpl. now rewrite IH.
  - reflexivity.
  - rewrite <- (repeat_length i n). symmetry. eapply Forall2_length. exact Hdocs.
Qed.

Lemma movies_stage_repeats_without_set_witness :
  exists docs evs w',
    save_movies online (repeat 8 3) "secret" movie_7_stored = (Ok tt, w')
    /\ out w' = out movie_7_stored ++ evs
    /\ requests evs = repeat (MovieDetails 8 "secret") 3
    /\ movies_json (files w')
       = Some (loaded_docs MOVIES_FILE_NAME movie_7_stored ++ docs)
    /\ length docs = 3%nat.
Proof.
  apply (movies_stage_repeats_without_set online "secret" 8 3 [JInt 7]
           movie_7_stored).
  - reflexivity.
  - reflexivity.
Defined.
